(** * equisolve: conversion of properties into a tensor map, and the RMSE metric

    A shallow embedding of [properties_to_tensormap] of
    [src/equisolve/utils/convert.py].  Python exceptions are values of
    [exn]; a call either returns ([Ok]) or raises ([Raise]).  numpy arrays
    are a shape together with the row-major data; the containers of
    equistore ([Labels], [TensorBlock], [TensorMap]) are records, and a block
    that Python updates in place is passed from step to step.  The
    arguments have the types the signature declares: [values] and
    [positions_gradients] are Python lists, [cell_gradients] is an array or
    a list of arrays, and all the numbers of a call are of one type, the
    element type of its arrays.

    [ase_to_tensormap] of the same file is not embedded: lines 49-51 put a
    [raise] statement in the else arm of a conditional expression, which is
    not an expression of Python, so the function has no behaviour to
    translate.

    The metric [rmse] is not among the sources; it is modelled from section 4.3 of
    the specification, over IEEE doubles.

    The first part holds the definitions, the second the theorems. *)

From Stdlib Require Import String Ascii ZArith Arith Bool Lia.
From Stdlib Require Import Floats.
From Stdlib Require Import List.
Import ListNotations.
Open Scope string_scope.
Open Scope nat_scope.
Open Scope list_scope.

(** * Part I: definitions *)

(** ** Exceptions and the error monad *)

Inductive exn : Type :=
| NotImplementedError
| ValueError
| IndexError
| TypeError
| EquistoreError.

Inductive result (T : Type) : Type :=
| Ok (x : T)
| Raise (e : exn).

Arguments Ok {T} x.
Arguments Raise {T} e.

Definition bind {T U : Type} (c : result T) (k : T -> result U) : result U :=
  match c with
  | Ok x => k x
  | Raise e => Raise e
  end.

Notation "x <- c ;; k" := (bind c (fun x => k))
  (at level 61, c at next level, right associativity).

(** ** numpy arrays *)

Record ndarray (A : Type) : Type := mk_ndarray {
  shape : list nat;
  data : list A
}.

Arguments mk_ndarray {A} shape data.
Arguments shape {A} n.
Arguments data {A} n.

Definition prod_shape (s : list nat) : nat := fold_right Nat.mul 1 s.

(** [a.size] *)
Definition np_size {A} (a : ndarray A) : nat := prod_shape (shape a).

(** [a.ndim] *)
Definition ndim {A} (a : ndarray A) : nat := length (shape a).

Definition shape_eqb (s t : list nat) : bool :=
  if list_eq_dec Nat.eq_dec s t then true else false.

(** [len(a)]: the first dimension; a zero-dimensional array has no length. *)
Definition py_len {A} (a : ndarray A) : result nat :=
  match shape a with
  | [] => Raise TypeError
  | n :: _ => Ok n
  end.

(** [a.shape[i]]: indexing the shape tuple out of range raises. *)
Definition shape_at {A} (a : ndarray A) (i : nat) : result nat :=
  match nth_error (shape a) i with
  | Some d => Ok d
  | None => Raise IndexError
  end.

(** [l[i]] on a Python list, for a non-negative index. *)
Definition list_getitem {T} (l : list T) (i : nat) : result T :=
  match nth_error l i with
  | Some x => Ok x
  | None => Raise IndexError
  end.

(** [np.asarray(values)] for a Python list of scalars that all have the
    element type [A] of the array, as the floats of the declared
    [List[float]] have: the array then holds the numbers of the list as they
    are.  (For a list that mixes kinds of numbers numpy first brings them to
    one type, which may round them; such a list is not a list of [A].) *)
Definition np_asarray_scalars {A} (values : list A) : ndarray A :=
  mk_ndarray [length values] values.

(** [a.reshape(-1, d1, ..., dk)]: the first dimension is inferred from the
    size; numpy refuses when the size is no multiple of [d1 * ... * dk]. *)
Definition np_reshape_infer {A} (a : ndarray A) (rest : list nat)
  : result (ndarray A) :=
  let p := prod_shape rest in
  if p =? 0 then Raise ValueError
  else if np_size a mod p =? 0
       then Ok (mk_ndarray (np_size a / p :: rest) (data a))
       else Raise ValueError.

(** [np.concatenate(arrays, axis=0)]: needs at least one array, none of them
    zero-dimensional, all of the same shape but for the first axis. *)
Definition np_concatenate {A} (arrays : list (ndarray A)) : result (ndarray A) :=
  match arrays with
  | [] => Raise ValueError
  | a0 :: _ =>
      if existsb (fun a => ndim a =? 0) arrays then Raise ValueError
      else if forallb (fun a => shape_eqb (tl (shape a)) (tl (shape a0))) arrays
      then Ok (mk_ndarray
                 (list_sum (map (fun a => hd 0 (shape a)) arrays) :: tl (shape a0))
                 (concat (map data arrays)))
      else Raise ValueError
  end.

(** The argument of [np.asarray]: an array already, or a Python list of
    arrays. *)
Inductive array_like (A : Type) : Type :=
| AnArray (a : ndarray A)
| AList (l : list (ndarray A)).

Arguments AnArray {A} a.
Arguments AList {A} l.

(** [len(x)] for an array-like. *)
Definition len_array_like {A} (x : array_like A) : result nat :=
  match x with
  | AnArray a => py_len a
  | AList l => Ok (length l)
  end.

(** [np.asarray(x)]: a list of arrays is stacked along a new first axis;
    arrays of different shapes do not stack. *)
Definition np_asarray {A} (x : array_like A) : result (ndarray A) :=
  match x with
  | AnArray a => Ok a
  | AList [] => Ok (mk_ndarray [0] [])
  | AList (a0 :: rest) =>
      if forallb (fun a => shape_eqb (shape a) (shape a0)) rest
      then Ok (mk_ndarray (length (a0 :: rest) :: shape a0)
                          (concat (map data (a0 :: rest))))
      else Raise ValueError
  end.

(** [np.arange(n).reshape(-1, 1)], as the rows of the integer matrix. *)
Definition arange_column (n : nat) : list (list Z) :=
  map (fun i => [Z.of_nat i]) (seq 0 n).

(** ** equistore containers *)

Record Labels : Type := mk_Labels {
  names : list string;
  rows : list (list Z)
}.

(** [Labels.single()]: one column named "_" holding the one row (0,). *)
Definition Labels_single : Labels := mk_Labels ["_"] [[0%Z]].

Definition is_ascii_letter (c : ascii) : bool :=
  ((("a" <=? c) && (c <=? "z")) || (("A" <=? c) && (c <=? "Z")))%char.

Definition is_ascii_digit (c : ascii) : bool :=
  (("0" <=? c) && (c <=? "9"))%char.

Definition is_identifier_char (c : ascii) : bool :=
  is_ascii_letter c || is_ascii_digit c || Ascii.eqb c "_".

(** The names the container takes for the columns of its labels:
    identifiers, that is, at least one character, each a letter, a digit or
    an underscore, the first not a digit. *)
Definition is_identifier (name : string) : bool :=
  match name with
  | EmptyString => false
  | String c _ =>
      negb (is_ascii_digit c) &&
      forallb is_identifier_char (list_ascii_of_string name)
  end.

(** [Labels(names, values)] as a block takes them: the container is
    external (equistore) and raises its own error for a name that is not an
    identifier. *)
Definition Labels_new (names : list string) (rows : list (list Z))
  : result Labels :=
  if forallb is_identifier names then Ok (mk_Labels names rows)
  else Raise EquistoreError.

(** The names that the converter writes out itself; each is an identifier
    (lemma [literal_names_are_identifiers]), so the labels of these names
    are always built, and are written with the record constructor below.
    Only the name of the property comes from the caller. *)
Definition literal_names : list string :=
  ["structure"; "sample"; "atom"; "direction"; "direction_1"; "direction_2"].

#[local] Set Warnings "-register-all".

Inductive TensorBlock (A : Type) : Type :=
| mk_TensorBlock (values : ndarray A) (samples : Labels)
    (components : list Labels) (properties : Labels)
    (gradients : list (string * TensorBlock A)).

Arguments mk_TensorBlock {A} values samples components properties gradients.

Section BlockFields.
Context {A : Type}.

Definition values (b : TensorBlock A) : ndarray A :=
  match b with mk_TensorBlock v _ _ _ _ => v end.
Definition samples (b : TensorBlock A) : Labels :=
  match b with mk_TensorBlock _ s _ _ _ => s end.
Definition components (b : TensorBlock A) : list Labels :=
  match b with mk_TensorBlock _ _ c _ _ => c end.
Definition properties (b : TensorBlock A) : Labels :=
  match b with mk_TensorBlock _ _ _ p _ => p end.
Definition gradients (b : TensorBlock A) : list (string * TensorBlock A) :=
  match b with mk_TensorBlock _ _ _ _ g => g end.

(** [block.gradient(name)], when attached. *)
Fixpoint lookup_gradient (name : string) (gs : list (string * TensorBlock A))
  : option (TensorBlock A) :=
  match gs with
  | [] => None
  | (n, g) :: gs' => if String.eqb n name then Some g else lookup_gradient name gs'
  end.

Definition gradient (b : TensorBlock A) (name : string) : option (TensorBlock A) :=
  lookup_gradient name (gradients b).

Definition has_gradient (b : TensorBlock A) (name : string) : bool :=
  match gradient b name with Some _ => true | None => false end.

(** [TensorBlock(values, samples, components, properties)]: the container
    is external (equistore); its constructor checks that the values array
    has one axis for the samples, one per component and one for the
    properties, each as long as its labels. *)
Definition TensorBlock_new (v : ndarray A) (s : Labels) (c : list Labels)
  (p : Labels) : result (TensorBlock A) :=
  if shape_eqb (shape v)
       (length (rows s) :: map (fun l => length (rows l)) c ++ [length (rows p)])
  then Ok (mk_TensorBlock v s c p [])
  else Raise EquistoreError.

(** [block.add_gradient(name, gradient)]: the block is updated in place in
    Python, here the updated block is returned; a name is attached once. *)
Definition add_gradient (b : TensorBlock A) (name : string)
  (g : TensorBlock A) : result (TensorBlock A) :=
  if has_gradient b name then Raise EquistoreError
  else Ok (mk_TensorBlock (values b) (samples b) (components b)
             (properties b) (gradients b ++ [(name, g)])).

(** [b] with one more gradient at the end of its list. *)
Definition with_gradient (b : TensorBlock A) (name : string)
  (g : TensorBlock A) : TensorBlock A :=
  mk_TensorBlock (values b) (samples b) (components b) (properties b)
    (gradients b ++ [(name, g)]).

End BlockFields.

Record TensorMap (A : Type) : Type := mk_TensorMap {
  keys : Labels;
  blocks : list (TensorBlock A)
}.

Arguments mk_TensorMap {A} keys blocks.
Arguments keys {A} t.
Arguments blocks {A} t.

(** [TensorMap(keys, blocks)]: one block per key. *)
Definition TensorMap_new {A} (k : Labels) (bs : list (TensorBlock A))
  : result (TensorMap A) :=
  if length (rows k) =? length bs then Ok (mk_TensorMap k bs)
  else Raise EquistoreError.

(** A tensor map as the container keeps it: one block per key, no key
    twice. *)
Definition valid_tensormap {A} (t : TensorMap A) : Prop :=
  NoDup (rows (keys t)) /\ length (rows (keys t)) = length (blocks t).

(** ** The converter *)

Section Converter.
Context {A : Type}.

(** The rows [[s, s, a] for s in range(n_structures)
    for a in range(len(positions_gradients[s]))], [ss] being the values
    [s] still to visit. *)
Fixpoint position_rows (positions_gradients : list (ndarray A)) (ss : list nat)
  : result (list (list Z)) :=
  match ss with
  | [] => Ok []
  | s :: ss' =>
      g <- list_getitem positions_gradients s ;;
      m <- py_len g ;;
      rest <- position_rows positions_gradients ss' ;;
      Ok (map (fun a => [Z.of_nat s; Z.of_nat s; Z.of_nat a]) (seq 0 m) ++ rest)
  end.

(** Lines 117-152: the "positions" gradient is built and attached. *)
Definition attach_positions (n_structures : nat) (block : TensorBlock A)
  (positions_gradients : list (ndarray A)) : result (TensorBlock A) :=
  if negb (n_structures =? length positions_gradients) then Raise ValueError
  else
    gradient_values <- np_concatenate positions_gradients ;;
    columns <- shape_at gradient_values 1 ;;
    if negb (columns =? 3) then Raise ValueError
    else
      sample_rows <- position_rows positions_gradients (seq 0 n_structures) ;;
      let position_gradient_samples :=
        mk_Labels ["sample"; "structure"; "atom"] sample_rows in
      reshaped <- np_reshape_infer gradient_values [3; 1] ;;
      positions_gradient <-
        TensorBlock_new reshaped position_gradient_samples
          [mk_Labels ["direction"] (arange_column 3)] (properties block) ;;
      add_gradient block "positions" positions_gradient.

(** Lines 154-186: the "cell" gradient is built and attached.  The message
    of the shape error reads [shape[1]] and [shape[2]] before the error is
    raised. *)
Definition attach_cell (n_structures : nat) (block : TensorBlock A)
  (cell_gradients : array_like A) : result (TensorBlock A) :=
  n_cell <- len_array_like cell_gradients ;;
  if negb (n_structures =? n_cell) then Raise ValueError
  else
    gradient_values <- np_asarray cell_gradients ;;
    if negb (shape_eqb (tl (shape gradient_values)) [3; 3]) then
      _ <- shape_at gradient_values 1 ;;
      _ <- shape_at gradient_values 2 ;;
      Raise ValueError
    else
      let cell_gradient_samples :=
        mk_Labels ["sample"] (map (fun s => [Z.of_nat s]) (seq 0 n_structures)) in
      let cell_components :=
        [mk_Labels ["direction_1"] (arange_column 3);
         mk_Labels ["direction_2"] (arange_column 3)] in
      reshaped <- np_reshape_infer gradient_values [3; 3; 1] ;;
      cell_gradient <-
        TensorBlock_new reshaped cell_gradient_samples cell_components
          (properties block) ;;
      add_gradient block "cell" cell_gradient.

(** [properties_to_tensormap] (lines 69-188).  [values] is the declared
    [List[float]], a Python list, whose [len] is its length;
    [positions_gradients] is the declared list of arrays, [None] by default;
    [cell_gradients] is array-like.  The first block (lines 110-115) takes
    the name of its property from the caller, and the container turns down
    a name that is not an identifier. *)
Definition properties_to_tensormap (values : list A)
  (positions_gradients : option (list (ndarray A)))
  (cell_gradients : option (array_like A))
  (is_structure_property : bool) (property_name : string)
  : result (TensorMap A) :=
  if negb is_structure_property then Raise NotImplementedError
  else
    let n_structures := length values in
    block_values <- np_reshape_infer (np_asarray_scalars values) [1] ;;
    block_properties <- Labels_new [property_name] [[0%Z]] ;;
    block <-
      TensorBlock_new block_values
        (mk_Labels ["structure"] (arange_column n_structures))
        []
        block_properties ;;
    block <-
      match positions_gradients with
      | Some pg => attach_positions n_structures block pg
      | None => Ok block
      end ;;
    block <-
      match cell_gradients with
      | Some cg => attach_cell n_structures block cg
      | None => Ok block
      end ;;
    TensorMap_new Labels_single [block].

End Converter.

(** ** Inputs and results of the converter *)

Definition is_given {T : Type} (o : option T) : bool :=
  match o with Some _ => true | None => false end.

Section ConverterShapes.
Context {A : Type}.
Implicit Types (vals : list A) (b : TensorBlock A).

(** The first block, before any gradient is attached (lines 108-115). *)
Definition value_block vals (property_name : string) : TensorBlock A :=
  mk_TensorBlock (mk_ndarray [length vals; 1] vals)
    (mk_Labels ["structure"] (arange_column (length vals)))
    []
    (mk_Labels [property_name] [[0%Z]])
    [].

(** The gradient names a call asks for, in the order they are attached. *)
Definition requested_gradients (pg : option (list (ndarray A)))
  (cg : option (array_like A)) : list string :=
  (match pg with Some _ => ["positions"] | None => [] end) ++
  (match cg with Some _ => ["cell"] | None => [] end).

(** Every gradient of [b] carries the property labels of [b]. *)
Definition gradients_share_properties b : Prop :=
  Forall (fun ng => properties (snd ng) = properties b) (gradients b).

(** [pg] holds one array of shape (a, 3) per entry [a] of [atoms]. *)
Definition per_structure_shapes (pg : list (ndarray A)) (atoms : list nat) : Prop :=
  Forall2 (fun g a => shape g = [a; 3]) pg atoms.

(** The sample rows of the "positions" gradient for the atom counts
    [atoms]: (s, s, a) for s in 0..N-1 and, within s, a in 0..a_s-1. *)
Definition position_sample_rows (n : nat) (atoms : list nat) : list (list Z) :=
  flat_map
    (fun s => map (fun a => [Z.of_nat s; Z.of_nat s; Z.of_nat a])
                  (seq 0 (nth s atoms 0)))
    (seq 0 n).

(** [np.asarray(x)] has shape [s]. *)
Definition has_shape (x : array_like A) (s : list nat) : Prop :=
  exists gv, np_asarray x = Ok gv /\ shape gv = s.

(** The positions gradients of a call that is valid for [n] structures:
    absent, or one array of shape (a_s, 3) for each of the [n >= 1]
    structures. *)
Definition valid_positions (n : nat) (pg : option (list (ndarray A))) : Prop :=
  match pg with
  | None => True
  | Some l => l <> [] /\ length l = n /\ exists atoms, per_structure_shapes l atoms
  end.

(** The cell gradients of a call that is valid for [n] structures: absent,
    or array-like of shape (n, 3, 3). *)
Definition valid_cell (n : nat) (cg : option (array_like A)) : Prop :=
  match cg with
  | None => True
  | Some x => has_shape x [n; 3; 3]
  end.

(** The positions gradients that the two checks of lines 118-130 turn
    down, for [n] structures: their number is not [n], or their
    concatenation has a second axis that is not 3 long. *)
Definition positions_rejected (n : nat) (pg : list (ndarray A)) : Prop :=
  length pg <> n \/
  exists gv columns,
    np_concatenate pg = Ok gv /\
    nth_error (shape gv) 1 = Some columns /\
    columns <> 3.

End ConverterShapes.

(** ** The metric *)

(** The failures that section 4.3 of the specification names for the
    metric. *)
Inductive metric_error : Type :=
| KeyMismatch
| ShapeMismatch
| UnknownParameter.

Inductive metric_result : Type :=
| Scores (l : list float)
| Fails (e : metric_error).

Definition row_eqb (r1 r2 : list Z) : bool :=
  if list_eq_dec Z.eq_dec r1 r2 then true else false.

Definition names_eqb (n1 n2 : list string) : bool :=
  if list_eq_dec string_dec n1 n2 then true else false.

(** The two maps have the same keys, in whatever order. *)
Definition same_key_set (k1 k2 : Labels) : bool :=
  names_eqb (names k1) (names k2) &&
  forallb (fun r => existsb (row_eqb r) (rows k2)) (rows k1) &&
  forallb (fun r => existsb (row_eqb r) (rows k1)) (rows k2).

(** [tensor.block(key)]: the block stored for the key. *)
Fixpoint lookup_block {A} (key : list Z) (ks : list (list Z))
  (bs : list (TensorBlock A)) : option (TensorBlock A) :=
  match ks, bs with
  | k :: ks', b :: bs' => if row_eqb k key then Some b else lookup_block key ks' bs'
  | _, _ => None
  end.

Definition block_of {A} (t : TensorMap A) (key : list Z) : option (TensorBlock A) :=
  lookup_block key (rows (keys t)) (blocks t).

(** Modelled from the spec: [select] of section 4.3, which resolves "values" to
    the values of the block and any other string to the values of the
    gradient of that name; the module of the metric is not among the
    sources. *)
Definition select (b : TensorBlock float) (parameter_key : string)
  : option (ndarray float) :=
  if String.eqb parameter_key "values" then Some (values b)
  else option_map values (gradient b parameter_key).

(** The number of items of an array, as a float; the count is a machine
    integer. *)
Definition float_of_nat (n : nat) : float :=
  PrimFloat.of_uint63 (Uint63.of_Z (Z.of_nat n)).

(** Counts that fit the machine integer. *)
Definition addressable (n : nat) : Prop := (Z.of_nat n < 2 ^ 63)%Z.

Definition float_sum (l : list float) : float :=
  fold_left PrimFloat.add l 0%float.

(** Modelled from the spec: [mean] of the formula of section 4.3, the sum
    over the count. *)
Definition mean (l : list float) : float :=
  (float_sum l / float_of_nat (length l))%float.

(** The squares [(x - y)^2], entry by entry. *)
Definition squared_errors (xs ys : list float) : list float :=
  map (fun xy => ((fst xy - snd xy) * (fst xy - snd xy))%float) (combine xs ys).

(** Modelled from the spec: the formula of section 4.3,
    [sqrt(mean((flatten(a) - flatten(b))^2))], over IEEE doubles. *)
Definition rmse_arrays (a b : ndarray float) : float :=
  PrimFloat.sqrt (mean (squared_errors (data a) (data b))).

(** Modelled from the spec: the per-key loop of [rmse] (section 4.3), over the
    keys of [y_true] in their order; [equisolve.utils.rmse] itself is not
    among the sources. *)
Fixpoint rmse_keys (entries : list (list Z * TensorBlock float))
  (y_pred : TensorMap float) (parameter_key : string) : metric_result :=
  match entries with
  | [] => Scores []
  | (key, y_true_block) :: rest =>
      match block_of y_pred key with
      | None => Fails KeyMismatch
      | Some y_pred_block =>
          match select y_true_block parameter_key,
                select y_pred_block parameter_key with
          | Some a, Some b =>
              if length (data a) =? length (data b) then
                match rmse_keys rest y_pred parameter_key with
                | Scores l => Scores (rmse_arrays a b :: l)
                | Fails e => Fails e
                end
              else Fails ShapeMismatch
          | _, _ => Fails UnknownParameter
          end
      end
  end.

(** Modelled from the spec: [rmse(y_true, y_pred, parameter_key)] of section 4.3;
    [equisolve.utils.rmse] is not among the sources, only its tests are. *)
Definition rmse (y_true y_pred : TensorMap float) (parameter_key : string)
  : metric_result :=
  if same_key_set (keys y_true) (keys y_pred)
  then rmse_keys (combine (rows (keys y_true)) (blocks y_true)) y_pred parameter_key
  else Fails KeyMismatch.

(** The entries of the array are finite numbers and there is at least
    one. *)
Definition finite_nonempty (a : ndarray float) : Prop :=
  Forall (fun x => is_finite x = true) (data a) /\
  data a <> [] /\
  addressable (length (data a)).

(** A positive number or plus infinity. *)
Definition positive_spec_float (x : spec_float) : Prop :=
  (exists m e, x = S754_finite false m e) \/ x = S754_infinity false.

(** ** Inputs used as examples *)

(** Two structures with two atoms and one atom, one 3x3 tensor per
    structure. *)
Definition example_values : list Z := [10; 20]%Z.

Definition example_positions : list (ndarray Z) :=
  [mk_ndarray [2; 3] [1; 2; 3; 4; 5; 6]%Z; mk_ndarray [1; 3] [7; 8; 9]%Z].

Definition example_cell : array_like Z :=
  AList [mk_ndarray [3; 3] [1; 0; 0; 0; 1; 0; 0; 0; 1]%Z;
         mk_ndarray [3; 3] [2; 0; 0; 0; 2; 0; 0; 0; 2]%Z].

Definition example_positions_gradient : TensorBlock Z :=
  mk_TensorBlock
    (mk_ndarray [3; 3; 1] [1; 2; 3; 4; 5; 6; 7; 8; 9]%Z)
    (mk_Labels ["sample"; "structure"; "atom"]
       [[0; 0; 0]; [0; 0; 1]; [1; 1; 0]]%Z)
    [mk_Labels ["direction"] [[0]; [1]; [2]]%Z]
    (mk_Labels ["energy"] [[0%Z]])
    [].

Definition example_cell_gradient : TensorBlock Z :=
  mk_TensorBlock
    (mk_ndarray [2; 3; 3; 1]
       [1; 0; 0; 0; 1; 0; 0; 0; 1; 2; 0; 0; 0; 2; 0; 0; 0; 2]%Z)
    (mk_Labels ["sample"] [[0]; [1]]%Z)
    [mk_Labels ["direction_1"] [[0]; [1]; [2]]%Z;
     mk_Labels ["direction_2"] [[0]; [1]; [2]]%Z]
    (mk_Labels ["energy"] [[0%Z]])
    [].

Definition example_block : TensorBlock Z :=
  mk_TensorBlock
    (mk_ndarray [2; 1] [10; 20]%Z)
    (mk_Labels ["structure"] [[0]; [1]]%Z)
    []
    (mk_Labels ["energy"] [[0%Z]])
    [("positions", example_positions_gradient); ("cell", example_cell_gradient)].

Definition example_tensormap : TensorMap Z :=
  mk_TensorMap (mk_Labels ["_"] [[0%Z]]) [example_block].

(** One structure whose gradient comes as a (1, 3, 1) array, as a flat
    array of four numbers, and as a (2, 4) array. *)
Definition column_gradient : ndarray Z := mk_ndarray [1; 3; 1] [1; 2; 3]%Z.

Definition flat_gradient : ndarray Z := mk_ndarray [4] [1; 2; 3; 4]%Z.

Definition wide_gradient : ndarray Z :=
  mk_ndarray [2; 4] [1; 2; 3; 4; 5; 6; 7; 8]%Z.

(** The stress of one structure in Voigt form, six numbers. *)
Definition voigt_stress : ndarray Z := mk_ndarray [6] [1; 2; 3; 4; 5; 6]%Z.

(** [equistore.block_from_array] for a column of numbers. *)
Definition block_from_array (l : list float) : TensorBlock float :=
  mk_TensorBlock (mk_ndarray [length l; 1] l)
    (mk_Labels ["samples"] (arange_column (length l)))
    []
    (mk_Labels ["properties"] [[0%Z]])
    [].

(** The first literal test of the metric ([test_values]): three keys, two
    numbers each. *)
Definition test_y_true : TensorMap float :=
  mk_TensorMap (mk_Labels ["key"] [[0]; [1]; [2]]%Z)
    (map block_from_array [[0.5; 1]; [-1; 1]; [7; -6]]%float).

Definition test_y_pred : TensorMap float :=
  mk_TensorMap (mk_Labels ["key"] [[0]; [1]; [2]]%Z)
    (map block_from_array [[0; 2]; [-1; 2]; [8; -5]]%float).

(** What the converter returns for no structure at all, and for one
    structure of infinite energy. *)
Definition empty_tensormap : TensorMap float :=
  mk_TensorMap (mk_Labels ["_"] [[0%Z]])
    [mk_TensorBlock (mk_ndarray [0; 1] [])
       (mk_Labels ["structure"] [])
       []
       (mk_Labels ["property"] [[0%Z]])
       []].

Definition infinite_tensormap : TensorMap float :=
  mk_TensorMap (mk_Labels ["_"] [[0%Z]])
    [mk_TensorBlock (mk_ndarray [1; 1] [infinity])
       (mk_Labels ["structure"] [[0%Z]])
       []
       (mk_Labels ["property"] [[0%Z]])
       []].

(** The tensor map of the second literal test of the metric, in small: two
    structures, with the gradient "positions" of two atoms and one atom. *)
Definition metric_example : TensorMap float :=
  mk_TensorMap (mk_Labels ["_"] [[0%Z]])
    [mk_TensorBlock (mk_ndarray [2; 1] [1.5; -2]%float)
       (mk_Labels ["structure"] [[0]; [1]]%Z)
       []
       (mk_Labels ["property"] [[0%Z]])
       [("positions",
         mk_TensorBlock
           (mk_ndarray [3; 3; 1] [0.5; 1; -1; 1; 7; -6; 0; 2; 8]%float)
           (mk_Labels ["sample"; "structure"; "atom"]
              [[0; 0; 0]; [0; 0; 1]; [1; 1; 0]]%Z)
           [mk_Labels ["direction"] [[0]; [1]; [2]]%Z]
           (mk_Labels ["property"] [[0%Z]])
           [])]].

(** ** The first axis of an array *)

(** [len(a)] for an array of at least one dimension. *)
Definition first_axis {A : Type} (a : ndarray A) : nat := hd 0 (shape a).

(** ** More inputs used as examples *)

(** One 3x3 tensor, where [example_values] holds two values. *)
Definition short_cell : array_like Z :=
  AList [mk_ndarray [3; 3] [1; 0; 0; 0; 1; 0; 0; 0; 1]%Z].

(** One tensor of shape (3, 4). *)
Definition wide_cell : array_like Z :=
  AList [mk_ndarray [3; 4] [1; 2; 3; 4; 5; 6; 7; 8; 9; 10; 11; 12]%Z].

(** Two structures whose gradients have three and four columns. *)
Definition ragged_positions : list (ndarray Z) :=
  [mk_ndarray [2; 3] [1; 2; 3; 4; 5; 6]%Z; mk_ndarray [1; 4] [7; 8; 9; 10]%Z].

(** A single number where the cell gradients are expected. *)
Definition scalar_cell : array_like Z := AnArray (mk_ndarray [] [5%Z]).

(** * Part II: theorems *)

(** ** Facts about the array operations *)

Lemma shape_eqb_refl (s : list nat) : shape_eqb s s = true.
Proof.
  unfold shape_eqb. destruct (list_eq_dec Nat.eq_dec s s); congruence.
Qed.

Lemma shape_eqb_eq (s t : list nat) : shape_eqb s t = true <-> s = t.
Proof.
  unfold shape_eqb. destruct (list_eq_dec Nat.eq_dec s t); split; congruence.
Qed.

Lemma arange_column_length (n : nat) : length (arange_column n) = n.
Proof.
  unfold arange_column. now rewrite length_map, length_seq.
Qed.

Lemma reshape_column {A} (values : list A) :
  np_reshape_infer (np_asarray_scalars values) [1] =
  Ok (mk_ndarray [length values; 1] values).
Proof.
  unfold np_reshape_infer, np_asarray_scalars, np_size. cbn [shape data prod_shape fold_right].
  rewrite !Nat.mul_1_r. cbn [Nat.eqb]. rewrite Nat.mod_1_r, Nat.div_1_r. reflexivity.
Qed.

Lemma np_reshape_infer_Ok {A} (a r : ndarray A) (rest : list nat) :
  np_reshape_infer a rest = Ok r ->
  r = mk_ndarray (np_size a / prod_shape rest :: rest) (data a) /\
  np_size a mod prod_shape rest = 0 /\ prod_shape rest <> 0.
Proof.
  unfold np_reshape_infer.
  destruct (prod_shape rest =? 0) eqn:Ep; [discriminate|].
  destruct (np_size a mod prod_shape rest =? 0) eqn:Em; [|discriminate].
  intros [= <-]. apply Nat.eqb_eq in Em. apply Nat.eqb_neq in Ep. auto.
Qed.

Lemma np_reshape_infer_multiple {A} (a : ndarray A) (n : nat) (rest : list nat) :
  np_size a = n * prod_shape rest ->
  prod_shape rest <> 0 ->
  np_reshape_infer a rest = Ok (mk_ndarray (n :: rest) (data a)).
Proof.
  intros Hsize Hp. unfold np_reshape_infer.
  destruct (Nat.eqb_spec (prod_shape rest) 0) as [|_]; [contradiction|].
  rewrite Hsize, Nat.Div0.mod_mul, Nat.div_mul by assumption. reflexivity.
Qed.

(** ** The names of the labels *)

Lemma literal_names_are_identifiers : forallb is_identifier literal_names = true.
Proof. reflexivity. Qed.

Lemma Labels_new_identifier (name : string) (rows : list (list Z)) :
  is_identifier name = true ->
  Labels_new [name] rows = Ok (mk_Labels [name] rows).
Proof.
  intros H. unfold Labels_new. cbn [forallb]. now rewrite H.
Qed.

Lemma Labels_new_not_identifier (name : string) (rows : list (list Z)) :
  is_identifier name = false ->
  Labels_new [name] rows = Raise EquistoreError.
Proof.
  intros H. unfold Labels_new. cbn [forallb]. now rewrite H.
Qed.

(** ** The converter *)

Section ConverterFacts.
Context {A : Type}.
Implicit Types (vals : list A) (b : TensorBlock A).

Lemma TensorBlock_new_Ok (v : ndarray A) s c p b :
  TensorBlock_new v s c p = Ok b ->
  b = mk_TensorBlock v s c p [] /\
  shape v = length (rows s) :: map (fun l => length (rows l)) c ++ [length (rows p)].
Proof.
  unfold TensorBlock_new. destruct (shape_eqb _ _) eqn:E; [|discriminate].
  intros [= <-]. split; [reflexivity | now apply shape_eqb_eq].
Qed.

Lemma add_gradient_Ok b name g b' :
  add_gradient b name g = Ok b' ->
  has_gradient b name = false /\
  b' = mk_TensorBlock (values b) (samples b) (components b) (properties b)
         (gradients b ++ [(name, g)]).
Proof.
  unfold add_gradient. destruct (has_gradient b name); [discriminate|].
  intros [= <-]. split; reflexivity.
Qed.

Lemma value_block_built vals property_name :
  is_identifier property_name = true ->
  (block_values <- np_reshape_infer (np_asarray_scalars vals) [1] ;;
   block_properties <- Labels_new [property_name] [[0%Z]] ;;
   TensorBlock_new block_values
     (mk_Labels ["structure"] (arange_column (length vals)))
     []
     block_properties) =
  Ok (value_block vals property_name).
Proof.
  intros Hname. rewrite reshape_column. cbn [bind].
  rewrite (Labels_new_identifier _ _ Hname). cbn [bind]. unfold TensorBlock_new.
  cbn [shape rows map app length]. rewrite arange_column_length, shape_eqb_refl.
  reflexivity.
Qed.

(** A name that is not an identifier: the first block is not built. *)
Lemma properties_to_tensormap_invalid_name vals pg cg property_name :
  is_identifier property_name = false ->
  properties_to_tensormap vals pg cg true property_name = Raise EquistoreError.
Proof.
  intros Hname. unfold properties_to_tensormap. cbn [negb].
  rewrite reshape_column. cbn [bind].
  now rewrite (Labels_new_not_identifier _ _ Hname).
Qed.

(** Only a name that is an identifier lets a call return. *)
Lemma properties_to_tensormap_Ok_name vals pg cg isp property_name tm :
  properties_to_tensormap vals pg cg isp property_name = Ok tm ->
  is_identifier property_name = true.
Proof.
  destruct isp; [|discriminate].
  destruct (is_identifier property_name) eqn:Hname; [reflexivity|].
  now rewrite (properties_to_tensormap_invalid_name _ _ _ _ Hname).
Qed.

(** The function, with its first block already built. *)
Lemma properties_to_tensormap_unfold vals pg cg property_name :
  is_identifier property_name = true ->
  properties_to_tensormap vals pg cg true property_name =
  (block <- match pg with
            | Some l => attach_positions (length vals) (value_block vals property_name) l
            | None => Ok (value_block vals property_name)
            end ;;
   block <- match cg with
            | Some x => attach_cell (length vals) block x
            | None => Ok block
            end ;;
   TensorMap_new Labels_single [block]).
Proof.
  intros Hname. unfold properties_to_tensormap. cbn [negb].
  pose proof (value_block_built vals property_name Hname) as H.
  destruct (np_reshape_infer (np_asarray_scalars vals) [1]) as [bv|e]; cbn [bind] in *.
  - destruct (Labels_new [property_name] [[0%Z]]) as [labels|e]; cbn [bind] in *.
    + rewrite H. reflexivity.
    + discriminate.
  - discriminate.
Qed.

(** C1: for every sequence of N scalars and every [property_name] that the
    container takes as the name of a column (an identifier, as the default
    "property" is), the call with values alone returns a tensor map with the
    single key of [Labels.single()] and one block: its values are the input
    as an (N, 1) array, its samples the column "structure" with the rows
    0..N-1 in order, its properties the column [property_name] with the one
    row (0,), and it has no component (and no gradient). *)
Theorem properties_to_tensormap_values_only vals (property_name : string) :
  is_identifier property_name = true ->
  properties_to_tensormap vals None None true property_name =
  Ok (mk_TensorMap (mk_Labels ["_"] [[0%Z]])
        [mk_TensorBlock
           (mk_ndarray [length vals; 1] vals)
           (mk_Labels ["structure"]
              (map (fun s => [Z.of_nat s]) (seq 0 (length vals))))
           []
           (mk_Labels [property_name] [[0%Z]])
           []]).
Proof.
  intros Hname. rewrite properties_to_tensormap_unfold by exact Hname.
  reflexivity.
Qed.

(** C9: whatever the other arguments, the call with
    [is_structure_property = False] raises [NotImplementedError]. *)
Theorem properties_to_tensormap_not_structure vals pg cg (property_name : string) :
  properties_to_tensormap vals pg cg false property_name =
  Raise NotImplementedError.
Proof.
  unfold properties_to_tensormap. cbn [negb]. reflexivity.
Qed.

(** C10: with no value and an empty list of positions gradients (and a
    [property_name] that is an identifier, as the default is, so that the
    first block is built) the length check passes, the concatenation of the
    empty list raises, and so does the call: no tensor map with an empty
    "positions" gradient comes back. *)
Theorem properties_to_tensormap_empty_positions cg (property_name : string) :
  is_identifier property_name = true ->
  (length (@nil A) =? length (@nil (ndarray A))) = true /\
  np_concatenate (@nil (ndarray A)) = Raise ValueError /\
  properties_to_tensormap (@nil A) (Some []) cg true property_name =
  Raise ValueError.
Proof.
  intros Hname. split; [reflexivity|]. split; [reflexivity|].
  rewrite properties_to_tensormap_unfold by exact Hname. reflexivity.
Qed.

(** *** What a successful attachment looks like *)

(** One step of a monadic computation that is known to return. *)
Ltac step_ok H :=
  match type of H with
  | bind ?c _ = Ok _ =>
      let E := fresh "E" in
      destruct c eqn:E; cbn [bind] in H; [|discriminate H]
  | (if ?c then _ else _) = Ok _ =>
      let E := fresh "E" in
      destruct c eqn:E; try discriminate H
  end.

Lemma attach_positions_Ok n b pg b' :
  attach_positions n b pg = Ok b' ->
  exists gv sample_rows,
    n = length pg /\
    np_concatenate pg = Ok gv /\
    nth_error (shape gv) 1 = Some 3 /\
    position_rows pg (seq 0 n) = Ok sample_rows /\
    has_gradient b "positions" = false /\
    b' = with_gradient b "positions"
           (mk_TensorBlock
              (mk_ndarray [np_size gv / 3; 3; 1] (data gv))
              (mk_Labels ["sample"; "structure"; "atom"] sample_rows)
              [mk_Labels ["direction"] [[0%Z]; [1%Z]; [2%Z]]]
              (properties b) []).
Proof.
  unfold attach_positions. intros H.
  step_ok H. step_ok H. step_ok H. step_ok H. step_ok H. step_ok H. step_ok H.
  apply negb_false_iff in E, E2. apply Nat.eqb_eq in E, E2.
  destruct (TensorBlock_new_Ok _ _ _ _ _ E5) as [-> _].
  destruct (add_gradient_Ok _ _ _ _ H) as [Hfresh ->].
  unfold shape_at in E1. destruct (nth_error (shape x) 1) eqn:Hcol; [|discriminate].
  injection E1 as ->. subst x0.
  destruct (np_reshape_infer_Ok _ _ _ E4) as [-> _].
  exists x, x1. repeat split; assumption.
Qed.

Lemma attach_cell_Ok n b cg b' :
  attach_cell n b cg = Ok b' ->
  exists gv,
    len_array_like cg = Ok n /\
    np_asarray cg = Ok gv /\
    tl (shape gv) = [3; 3] /\
    has_gradient b "cell" = false /\
    b' = with_gradient b "cell"
           (mk_TensorBlock
              (mk_ndarray [np_size gv / 9; 3; 3; 1] (data gv))
              (mk_Labels ["sample"] (map (fun s => [Z.of_nat s]) (seq 0 n)))
              [mk_Labels ["direction_1"] [[0%Z]; [1%Z]; [2%Z]];
               mk_Labels ["direction_2"] [[0%Z]; [1%Z]; [2%Z]]]
              (properties b) []).
Proof.
  unfold attach_cell. intros H.
  step_ok H. step_ok H. step_ok H.
  destruct (negb (shape_eqb (tl (shape x0)) [3; 3])) eqn:E2.
  { destruct (shape_at x0 1); cbn [bind] in H; [|discriminate].
    destruct (shape_at x0 2); cbn [bind] in H; discriminate. }
  step_ok H. step_ok H.
  apply negb_false_iff in E0, E2. apply Nat.eqb_eq in E0. subst x.
  apply shape_eqb_eq in E2.
  destruct (TensorBlock_new_Ok _ _ _ _ _ E4) as [-> _].
  destruct (add_gradient_Ok _ _ _ _ H) as [Hfresh ->].
  destruct (np_reshape_infer_Ok _ _ _ E3) as [-> _].
  exists x0. repeat split; assumption.
Qed.

Lemma gradient_fresh_same b name g :
  has_gradient b name = false ->
  gradient (with_gradient b name g) name = Some g.
Proof.
  unfold has_gradient, gradient, with_gradient. cbn [gradients].
  induction (gradients b) as [|[n0 g0] gs IH]; cbn [app lookup_gradient]; intros H.
  - now rewrite String.eqb_refl.
  - destruct (String.eqb n0 name); [discriminate | now apply IH].
Qed.

Lemma gradient_app_other b name other g :
  String.eqb other name = false ->
  gradient (with_gradient b other g) name = gradient b name.
Proof.
  intros Hne. unfold gradient, with_gradient. cbn [gradients].
  induction (gradients b) as [|[n0 g0] gs IH]; cbn [app lookup_gradient].
  - now rewrite Hne.
  - destruct (String.eqb n0 name); [reflexivity | exact IH].
Qed.

(** *** The shape of every result *)

Lemma has_gradient_names b name :
  has_gradient b name =
  existsb (fun n => String.eqb n name) (map fst (gradients b)).
Proof.
  unfold has_gradient, gradient.
  induction (gradients b) as [|[n0 g0] gs IH]; cbn [lookup_gradient map fst existsb].
  - reflexivity.
  - destruct (String.eqb n0 name); [reflexivity | exact IH].
Qed.

Lemma properties_to_tensormap_Ok vals pg cg isp property_name tm :
  properties_to_tensormap vals pg cg isp property_name = Ok tm ->
  exists b,
    tm = mk_TensorMap Labels_single [b] /\
    values b = mk_ndarray [length vals; 1] vals /\
    samples b = mk_Labels ["structure"] (arange_column (length vals)) /\
    components b = [] /\
    properties b = mk_Labels [property_name] [[0%Z]] /\
    map fst (gradients b) = requested_gradients pg cg /\
    gradients_share_properties b.
Proof.
  intros H. pose proof (properties_to_tensormap_Ok_name _ _ _ _ _ _ H) as Hname.
  destruct isp; [|discriminate].
  rewrite properties_to_tensormap_unfold in H by exact Hname.
  step_ok H. step_ok H. cbn in H. injection H as <-.
  assert (Hx : values x = mk_ndarray [length vals; 1] vals /\
               samples x = mk_Labels ["structure"] (arange_column (length vals)) /\
               components x = [] /\
               properties x = mk_Labels [property_name] [[0%Z]] /\
               map fst (gradients x) =
                 match pg with Some _ => ["positions"] | None => [] end /\
               gradients_share_properties x).
  { destruct pg as [l|].
    - destruct (attach_positions_Ok _ _ _ _ E) as (gv & sr & _ & _ & _ & _ & _ & ->).
      repeat split. repeat constructor.
    - injection E as <-. repeat split. constructor. }
  destruct Hx as (Hv & Hs & Hc & Hp & Hg & Hsh).
  exists x0. split; [reflexivity|].
  destruct cg as [c|].
  - destruct (attach_cell_Ok _ _ _ _ E0) as (gv & _ & _ & _ & _ & ->).
    unfold with_gradient, requested_gradients, gradients_share_properties.
    cbn [values samples components properties gradients].
    repeat split; try assumption.
    + now rewrite map_app, Hg.
    + apply Forall_app. split; [exact Hsh | repeat constructor].
  - injection E0 as <-. unfold requested_gradients. rewrite app_nil_r.
    repeat split; assumption.
Qed.

(** C5: after every call that returns, each gradient attached to the block
    ("positions", "cell") carries property labels equal to those of the
    block itself, names and rows alike: the column [property_name] with the
    one row (0,). *)
Theorem gradient_properties_equal_parent vals pg cg isp property_name tm :
  properties_to_tensormap vals pg cg isp property_name = Ok tm ->
  forall b, In b (blocks tm) ->
  forall name g, In (name, g) (gradients b) ->
  properties g = properties b /\
  properties g = mk_Labels [property_name] [[0%Z]].
Proof.
  intros H b Hb name g Hg.
  destruct (properties_to_tensormap_Ok _ _ _ _ _ _ H)
    as (b0 & -> & _ & _ & _ & Hp & _ & Hsh).
  destruct Hb as [<-|[]].
  unfold gradients_share_properties in Hsh. rewrite Forall_forall in Hsh.
  specialize (Hsh _ Hg). cbn [snd] in Hsh. split; congruence.
Qed.

(** C6: a call ends in one of two ways.  Either it raises, and then nothing
    is returned; or it returns the whole tensor map: the single key, the one
    block with the values, samples and properties of the input, and every
    gradient that was asked for, no more and no fewer.  The map itself is
    built by the last statement, after every check has passed, so a map
    short of a requested gradient is never returned. *)
Theorem properties_to_tensormap_atomic vals pg cg isp property_name :
  (exists e, properties_to_tensormap vals pg cg isp property_name = Raise e) \/
  (exists b,
     properties_to_tensormap vals pg cg isp property_name =
       TensorMap_new Labels_single [b] /\
     TensorMap_new Labels_single [b] = Ok (mk_TensorMap Labels_single [b]) /\
     values b = mk_ndarray [length vals; 1] vals /\
     samples b = mk_Labels ["structure"]
                   (map (fun s => [Z.of_nat s]) (seq 0 (length vals))) /\
     properties b = mk_Labels [property_name] [[0%Z]] /\
     map fst (gradients b) = requested_gradients pg cg /\
     has_gradient b "positions" = is_given pg /\
     has_gradient b "cell" = is_given cg).
Proof.
  destruct (properties_to_tensormap vals pg cg isp property_name) as [tm|e] eqn:H.
  - right.
    destruct (properties_to_tensormap_Ok _ _ _ _ _ _ H)
      as (b & -> & Hv & Hs & _ & Hp & Hg & _).
    exists b. repeat split; try assumption.
    + rewrite has_gradient_names, Hg. now destruct pg, cg.
    + rewrite has_gradient_names, Hg. now destruct pg, cg.
  - left. now exists e.
Qed.

(** *** Positions gradients of shape (a_s, 3) *)

Lemma per_structure_first_axis (pg : list (ndarray A)) atoms :
  per_structure_shapes pg atoms ->
  map (fun a => hd 0 (shape a)) pg = atoms.
Proof.
  induction 1 as [|g a pg atoms Hg _ IH]; cbn [map]; [reflexivity|].
  now rewrite Hg, IH.
Qed.

Lemma per_structure_nth (pg : list (ndarray A)) atoms s g :
  per_structure_shapes pg atoms ->
  nth_error pg s = Some g ->
  shape g = [nth s atoms 0; 3].
Proof.
  intros H. revert s. induction H as [|g0 a pg atoms Hg _ IH]; intros [|s] Hs;
    cbn in Hs; try discriminate.
  - injection Hs as <-. exact Hg.
  - cbn [nth]. now apply IH.
Qed.

Lemma np_concatenate_per_structure (pg : list (ndarray A)) atoms :
  pg <> [] ->
  per_structure_shapes pg atoms ->
  np_concatenate pg =
  Ok (mk_ndarray [list_sum atoms; 3] (concat (map data pg))).
Proof.
  intros Hne H. unfold np_concatenate.
  destruct pg as [|a0 rest] eqn:Epg; [congruence|]. rewrite <- Epg in *.
  assert (Hz : existsb (fun a => ndim a =? 0) pg = false).
  { clear -H. induction H as [|g a pg atoms Hg _ IH]; cbn [existsb]; [reflexivity|].
    rewrite IH. unfold ndim. now rewrite Hg. }
  assert (Ht : forall t, forallb (fun a => shape_eqb (tl (shape a)) t) pg = true
                         \/ t <> [3]).
  { intros t. destruct (list_eq_dec Nat.eq_dec t [3]) as [->|]; [left|now right].
    clear -H. induction H as [|g a pg atoms Hg _ IH]; cbn [forallb]; [reflexivity|].
    rewrite IH, Hg. reflexivity. }
  assert (H0 : tl (shape a0) = [3]).
  { subst pg. inversion H as [|? ? ? ? Hg]; subst. now rewrite Hg. }
  rewrite Hz. destruct (Ht (tl (shape a0))) as [-> | Hbad]; [|contradiction].
  now rewrite (per_structure_first_axis _ _ H), H0.
Qed.

Lemma position_rows_per_structure (pg : list (ndarray A)) atoms ss :
  per_structure_shapes pg atoms ->
  Forall (fun s => s < length pg) ss ->
  position_rows pg ss =
  Ok (flat_map
        (fun s => map (fun a => [Z.of_nat s; Z.of_nat s; Z.of_nat a])
                      (seq 0 (nth s atoms 0))) ss).
Proof.
  intros H. induction 1 as [|s ss Hs _ IH]; cbn [position_rows flat_map]; [reflexivity|].
  unfold list_getitem. destruct (nth_error pg s) as [g|] eqn:Eg.
  - cbn [bind]. unfold py_len. rewrite (per_structure_nth _ _ _ _ H Eg).
    cbn [bind]. rewrite IH. reflexivity.
  - apply nth_error_None in Eg. lia.
Qed.

Lemma map_nth_seq (atoms : list nat) :
  map (fun s => nth s atoms 0) (seq 0 (length atoms)) = atoms.
Proof.
  induction atoms as [|a atoms IH]; [reflexivity|].
  cbn [length seq map nth]. rewrite <- seq_shift, map_map. cbn [nth].
  now rewrite IH.
Qed.

Lemma position_sample_rows_length atoms :
  length (position_sample_rows (length atoms) atoms) = list_sum atoms.
Proof.
  unfold position_sample_rows. rewrite length_flat_map.
  rewrite (map_ext _ (fun s => nth s atoms 0)).
  - now rewrite map_nth_seq.
  - intros s. now rewrite length_map, length_seq.
Qed.

Lemma attach_positions_per_structure b (pg : list (ndarray A)) atoms :
  pg <> [] ->
  per_structure_shapes pg atoms ->
  has_gradient b "positions" = false ->
  length (rows (properties b)) = 1 ->
  attach_positions (length pg) b pg =
  Ok (with_gradient b "positions"
        (mk_TensorBlock
           (mk_ndarray [list_sum atoms; 3; 1] (concat (map data pg)))
           (mk_Labels ["sample"; "structure"; "atom"]
              (position_sample_rows (length pg) atoms))
           [mk_Labels ["direction"] [[0%Z]; [1%Z]; [2%Z]]]
           (properties b) [])).
Proof.
  intros Hne H Hfresh Hp. unfold attach_positions.
  rewrite Nat.eqb_refl. cbn [negb].
  rewrite (np_concatenate_per_structure _ _ Hne H). cbn [bind shape_at shape nth_error].
  cbn [Nat.eqb negb].
  rewrite (position_rows_per_structure _ atoms) by
    (try assumption; apply Forall_forall; intros s Hs; apply in_seq in Hs; lia).
  cbn [bind]. fold (position_sample_rows (length pg) atoms).
  assert (Hlen : length pg = length atoms) by (eapply Forall2_length; eassumption).
  rewrite (np_reshape_infer_multiple _ (list_sum atoms)) by (cbn; lia).
  cbn [bind data]. unfold TensorBlock_new. cbn [shape rows map app length].
  rewrite Hlen, position_sample_rows_length, Hp, shape_eqb_refl. cbn [bind].
  unfold add_gradient. rewrite Hfresh. reflexivity.
Qed.

(** *** Cell gradients of shape (N, 3, 3) *)

Lemma has_shape_len (x : array_like A) n s :
  has_shape x (n :: s) -> len_array_like x = Ok n.
Proof.
  intros (gv & Hgv & Hs). destruct x as [a|l]; cbn in *.
  - injection Hgv as <-. unfold py_len. now rewrite Hs.
  - destruct l as [|a0 rest].
    + injection Hgv as <-. cbn in Hs |- *. now injection Hs as <- _.
    + destruct (forallb _ rest); [|discriminate].
      injection Hgv as <-. cbn [shape] in Hs. now injection Hs as <- _.
Qed.

Lemma attach_cell_3x3 n b (x : array_like A) :
  has_shape x [n; 3; 3] ->
  has_gradient b "cell" = false ->
  length (rows (properties b)) = 1 ->
  exists gv,
    np_asarray x = Ok gv /\
    attach_cell n b x =
    Ok (with_gradient b "cell"
          (mk_TensorBlock
             (mk_ndarray [n; 3; 3; 1] (data gv))
             (mk_Labels ["sample"] (map (fun s => [Z.of_nat s]) (seq 0 n)))
             [mk_Labels ["direction_1"] [[0%Z]; [1%Z]; [2%Z]];
              mk_Labels ["direction_2"] [[0%Z]; [1%Z]; [2%Z]]]
             (properties b) [])).
Proof.
  intros Hx Hfresh Hp. pose proof (has_shape_len _ _ _ Hx) as Hlen.
  destruct Hx as (gv & Hgv & Hs). exists gv. split; [exact Hgv|].
  unfold attach_cell. rewrite Hlen, Hgv. cbn [bind]. rewrite Nat.eqb_refl.
  rewrite Hs. cbn [negb tl]. rewrite shape_eqb_refl. cbn [negb].
  rewrite (np_reshape_infer_multiple _ n) by (unfold np_size; rewrite ?Hs; cbn; lia).
  cbn [bind]. unfold TensorBlock_new. cbn [shape rows map app length].
  rewrite length_map, length_seq, Hp, shape_eqb_refl. cbn [bind].
  unfold add_gradient. rewrite Hfresh. reflexivity.
Qed.

(** *** Valid calls *)

Lemma positions_step_valid vals pg property_name :
  valid_positions (length vals) pg ->
  exists b,
    match pg with
    | Some l => attach_positions (length vals) (value_block vals property_name) l
    | None => Ok (value_block vals property_name)
    end = Ok b /\
    properties b = mk_Labels [property_name] [[0%Z]] /\
    has_gradient b "cell" = false.
Proof.
  destruct pg as [l|]; cbn [valid_positions].
  - intros (Hne & Hlen & atoms & Hshapes). rewrite <- Hlen.
    rewrite (attach_positions_per_structure _ _ atoms) by (try assumption; reflexivity).
    eexists. split; [reflexivity|]. split; reflexivity.
  - intros _. eexists. split; [reflexivity|]. split; reflexivity.
Qed.

(** C2, amended: in every valid call with positions gradients for at least
    one structure (N >= 1; a [property_name] that is an identifier, one
    array of shape (a_s, 3) per structure, cell gradients absent or of
    shape (N, 3, 3)) the call returns, and the block carries a
    gradient "positions": its values are the per-structure arrays
    concatenated in structure order, as a (sum of the a_s, 3, 1) array; its
    samples are the rows (sample = s, structure = s, atom = a) for s in
    0..N-1 and a in 0..a_s-1, structures in order and the atoms of one
    structure together, as many rows as there are atoms; its one component
    is "direction" with the values 0, 1, 2. *)
Theorem positions_gradient_attached vals (pg : list (ndarray A)) atoms cg
  (property_name : string) :
  is_identifier property_name = true ->
  vals <> [] ->
  length pg = length vals ->
  per_structure_shapes pg atoms ->
  valid_cell (length vals) cg ->
  exists b sample_rows,
    properties_to_tensormap vals (Some pg) cg true property_name =
      Ok (mk_TensorMap Labels_single [b]) /\
    gradient b "positions" =
      Some (mk_TensorBlock
              (mk_ndarray [list_sum atoms; 3; 1] (concat (map data pg)))
              (mk_Labels ["sample"; "structure"; "atom"] sample_rows)
              [mk_Labels ["direction"] [[0%Z]; [1%Z]; [2%Z]]]
              (mk_Labels [property_name] [[0%Z]])
              []) /\
    sample_rows =
      flat_map
        (fun s => map (fun a => [Z.of_nat s; Z.of_nat s; Z.of_nat a])
                      (seq 0 (nth s atoms 0)))
        (seq 0 (length vals)) /\
    length sample_rows = list_sum atoms.
Proof.
  intros Hname Hvals Hlen Hshapes Hcell.
  assert (Hne : pg <> []).
  { intros ->. destruct vals; [congruence | discriminate]. }
  assert (Hatoms : length vals = length atoms).
  { rewrite <- Hlen. eapply Forall2_length; eassumption. }
  rewrite properties_to_tensormap_unfold by exact Hname. rewrite <- Hlen.
  rewrite (attach_positions_per_structure _ _ atoms) by (try assumption; reflexivity).
  cbn [bind]. rewrite Hlen.
  set (g := mk_TensorBlock (mk_ndarray [list_sum atoms; 3; 1] (concat (map data pg)))
              _ _ _ _).
  set (b1 := with_gradient (value_block vals property_name) "positions" g).
  assert (Hg1 : gradient b1 "positions" = Some g) by reflexivity.
  destruct cg as [x|]; cbn [valid_cell] in Hcell.
  - destruct (attach_cell_3x3 (length vals) b1 x Hcell) as (gv & _ & ->);
      [reflexivity | reflexivity |]. cbn [bind].
    eexists. eexists. split; [reflexivity|].
    rewrite gradient_app_other by reflexivity. rewrite Hg1. subst g.
    split; [reflexivity|]. split; [reflexivity|].
    fold (position_sample_rows (length vals) atoms).
    rewrite Hatoms. apply position_sample_rows_length.
  - cbn [bind]. eexists. eexists. split; [reflexivity|].
    rewrite Hg1. subst g.
    split; [reflexivity|]. split; [reflexivity|].
    fold (position_sample_rows (length vals) atoms).
    rewrite Hatoms. apply position_sample_rows_length.
Qed.

(** *** What the checks of the positions gradients raise *)

Lemma positions_length_mismatch vals pg cg property_name :
  is_identifier property_name = true ->
  length pg <> length vals ->
  properties_to_tensormap vals (Some pg) cg true property_name = Raise ValueError.
Proof.
  intros Hname H. rewrite properties_to_tensormap_unfold by exact Hname.
  unfold attach_positions.
  destruct (Nat.eqb_spec (length vals) (length pg)) as [E|_]; [congruence|].
  reflexivity.
Qed.

Lemma positions_columns_mismatch vals pg cg property_name gv columns :
  is_identifier property_name = true ->
  np_concatenate pg = Ok gv ->
  nth_error (shape gv) 1 = Some columns ->
  columns <> 3 ->
  properties_to_tensormap vals (Some pg) cg true property_name = Raise ValueError.
Proof.
  intros Hname Hgv Hc Hne. rewrite properties_to_tensormap_unfold by exact Hname.
  unfold attach_positions.
  destruct (negb (length vals =? length pg)); [reflexivity|].
  rewrite Hgv. cbn [bind]. unfold shape_at. rewrite Hc. cbn [bind].
  destruct (Nat.eqb_spec columns 3) as [|_]; [contradiction|]. reflexivity.
Qed.

(** C3, amended: when positions gradients are given (and [property_name]
    is an identifier, so that the first block is built and the checks of
    lines 118-130 are reached), the call raises [ValueError], and so
    returns no tensor map, if their number differs from the number of
    values, and also if the concatenated array has a second axis (its
    columns, [shape[1]]) that is not 3 long. *)
Theorem positions_rejected_ValueError vals pg cg (property_name : string) :
  is_identifier property_name = true ->
  positions_rejected (length vals) pg ->
  properties_to_tensormap vals (Some pg) cg true property_name =
  Raise ValueError.
Proof.
  intros Hname [Hlen | (gv & columns & Hgv & Hc & Hne)].
  - now apply positions_length_mismatch.
  - now apply (positions_columns_mismatch _ _ _ _ gv columns).
Qed.

(** X7: with a [property_name] that is an identifier, positions gradients,
    as many as there are values, whose concatenation is one-dimensional make
    the call raise [IndexError]: the column check of line 126 reads
    [shape[1]]. *)
Lemma positions_one_dimensional vals pg cg property_name gv :
  is_identifier property_name = true ->
  length pg = length vals ->
  np_concatenate pg = Ok gv ->
  ndim gv = 1 ->
  properties_to_tensormap vals (Some pg) cg true property_name = Raise IndexError.
Proof.
  intros Hname Hlen Hgv Hd. rewrite properties_to_tensormap_unfold by exact Hname.
  unfold attach_positions.
  rewrite Hlen, Nat.eqb_refl. cbn [negb]. rewrite Hgv. cbn [bind].
  unfold shape_at, ndim in *. destruct (shape gv) as [|d [|d' t]]; try discriminate.
  reflexivity.
Qed.

(** *** What the checks of the cell gradients raise *)

Lemma attach_cell_not_3x3 n b (x : array_like A) m p q :
  has_shape x [m; p; q] ->
  (p, q) <> (3, 3) ->
  attach_cell n b x = Raise ValueError.
Proof.
  intros Hx Hpq. pose proof (has_shape_len _ _ _ Hx) as Hlen.
  destruct Hx as (gv & Hgv & Hs). unfold attach_cell. rewrite Hlen. cbn [bind].
  destruct (negb (n =? m)); [reflexivity|].
  rewrite Hgv. cbn [bind]. rewrite Hs. cbn [tl].
  destruct (shape_eqb [p; q] [3; 3]) eqn:E.
  - apply shape_eqb_eq in E. congruence.
  - cbn [negb]. unfold shape_at. rewrite Hs. reflexivity.
Qed.

(** X3: with a [property_name] that is an identifier and positions
    gradients absent or valid, a three-dimensional cell array (m, p, q)
    whose last two dimensions are not (3, 3) makes the call raise
    [ValueError], by the length check or by the shape check of lines
    163-167. *)
Lemma cell_not_3x3 vals pg x property_name m p q :
  is_identifier property_name = true ->
  valid_positions (length vals) pg ->
  has_shape x [m; p; q] ->
  (p, q) <> (3, 3) ->
  properties_to_tensormap vals pg (Some x) true property_name = Raise ValueError.
Proof.
  intros Hname Hpg Hx Hpq. rewrite properties_to_tensormap_unfold by exact Hname.
  destruct (positions_step_valid vals pg property_name Hpg) as (b & -> & _).
  cbn [bind]. now rewrite (attach_cell_not_3x3 _ _ _ m p q).
Qed.

(** X4: with a [property_name] that is an identifier, positions gradients
    absent or valid and cell gradients of shape (N, 3, 3), the call
    returns, and the block carries a gradient
    "cell" of shape (N, 3, 3, 1) holding the entries of the array, with the
    sample rows (0), ..., (N-1) and the components "direction_1" and
    "direction_2" of three values each. *)
Lemma cell_3x3_attached vals pg x property_name :
  is_identifier property_name = true ->
  valid_positions (length vals) pg ->
  has_shape x [length vals; 3; 3] ->
  exists b gv,
    np_asarray x = Ok gv /\
    properties_to_tensormap vals pg (Some x) true property_name =
      Ok (mk_TensorMap Labels_single [b]) /\
    gradient b "cell" =
      Some (mk_TensorBlock
              (mk_ndarray [length vals; 3; 3; 1] (data gv))
              (mk_Labels ["sample"] (map (fun s => [Z.of_nat s]) (seq 0 (length vals))))
              [mk_Labels ["direction_1"] [[0%Z]; [1%Z]; [2%Z]];
               mk_Labels ["direction_2"] [[0%Z]; [1%Z]; [2%Z]]]
              (mk_Labels [property_name] [[0%Z]])
              []).
Proof.
  intros Hname Hpg Hx. rewrite properties_to_tensormap_unfold by exact Hname.
  destruct (positions_step_valid vals pg property_name Hpg) as (b & -> & Hp & Hfresh).
  cbn [bind].
  destruct (attach_cell_3x3 (length vals) b x Hx Hfresh) as (gv & Hgv & ->).
  { now rewrite Hp. }
  cbn [bind]. eexists. exists gv. split; [exact Hgv|]. split; [reflexivity|].
  rewrite gradient_fresh_same by exact Hfresh. now rewrite Hp.
Qed.

(** X5: with a [property_name] that is an identifier and positions
    gradients absent or valid, cell gradients as many as there are values
    whose array has fewer than three dimensions make the call raise
    [IndexError]: the shape test fails and the message of its error reads
    [shape[1]] and [shape[2]] (lines 163-167). *)
Lemma cell_too_few_dimensions vals pg x property_name gv :
  is_identifier property_name = true ->
  valid_positions (length vals) pg ->
  len_array_like x = Ok (length vals) ->
  np_asarray x = Ok gv ->
  ndim gv < 3 ->
  properties_to_tensormap vals pg (Some x) true property_name = Raise IndexError.
Proof.
  intros Hname Hpg Hlen Hgv Hd. rewrite properties_to_tensormap_unfold by exact Hname.
  destruct (positions_step_valid vals pg property_name Hpg) as (b & -> & _).
  cbn [bind]. unfold attach_cell. rewrite Hlen. cbn [bind].
  rewrite Nat.eqb_refl. cbn [negb]. rewrite Hgv. cbn [bind].
  unfold ndim, shape_at in *.
  destruct (shape gv) as [|d0 [|d1 [|d2 t]]]; cbn [length tl] in Hd |- *;
    [reflexivity | reflexivity | | lia].
  destruct (shape_eqb [d1] [3; 3]) eqn:E; [|reflexivity].
  apply shape_eqb_eq in E. discriminate.
Qed.

End ConverterFacts.

(** ** The examples, evaluated *)

Example example_converted :
  properties_to_tensormap example_values (Some example_positions)
    (Some example_cell) true "energy" = Ok example_tensormap.
Proof. reflexivity. Qed.

Lemma properties_to_tensormap_values_only_witness :
  properties_to_tensormap example_values None None true "energy" =
  Ok (mk_TensorMap (mk_Labels ["_"] [[0%Z]])
        [mk_TensorBlock
           (mk_ndarray [length example_values; 1] example_values)
           (mk_Labels ["structure"]
              (map (fun s => [Z.of_nat s]) (seq 0 (length example_values))))
           []
           (mk_Labels ["energy"] [[0%Z]])
           []]).
Proof.
  apply (properties_to_tensormap_values_only example_values "energy").
  reflexivity.
Defined.

Lemma properties_to_tensormap_empty_positions_witness :
  (length (@nil Z) =? length (@nil (ndarray Z))) = true /\
  np_concatenate (@nil (ndarray Z)) = Raise ValueError /\
  properties_to_tensormap (@nil Z) (Some []) None true "property" =
  Raise ValueError.
Proof.
  apply (properties_to_tensormap_empty_positions None "property").
  reflexivity.
Defined.

Lemma example_positions_shapes : per_structure_shapes example_positions [2; 1].
Proof. repeat constructor. Defined.

Lemma example_cell_shape : has_shape example_cell [2; 3; 3].
Proof. eexists. split; reflexivity. Defined.

Lemma positions_gradient_attached_witness :
  exists b sample_rows,
    properties_to_tensormap example_values (Some example_positions)
      (Some example_cell) true "energy" =
      Ok (mk_TensorMap Labels_single [b]) /\
    gradient b "positions" =
      Some (mk_TensorBlock
              (mk_ndarray [list_sum [2; 1]; 3; 1]
                 (concat (map data example_positions)))
              (mk_Labels ["sample"; "structure"; "atom"] sample_rows)
              [mk_Labels ["direction"] [[0%Z]; [1%Z]; [2%Z]]]
              (mk_Labels ["energy"] [[0%Z]])
              []) /\
    sample_rows =
      flat_map
        (fun s => map (fun a => [Z.of_nat s; Z.of_nat s; Z.of_nat a])
                      (seq 0 (nth s [2; 1] 0)))
        (seq 0 (length example_values)) /\
    length sample_rows = list_sum [2; 1].
Proof.
  apply (positions_gradient_attached example_values example_positions [2; 1]
           (Some example_cell) "energy").
  - reflexivity.
  - discriminate.
  - reflexivity.
  - exact example_positions_shapes.
  - exact example_cell_shape.
Defined.

(** C2, as stated, fails for no structure at all.  The call with no value
    and the empty list of positions gradients violates no declared
    precondition: the lengths agree, each of the arrays (there is none) has
    the shape (a_s, 3), the cell gradients are absent and the name is the
    default.  Yet the call raises [ValueError], so no block gets a gradient
    "positions". *)
Lemma positions_no_structure_counterexample :
  is_identifier "property" = true /\
  length (@nil (ndarray Z)) = length (@nil Z) /\
  per_structure_shapes (@nil (ndarray Z)) [] /\
  valid_cell (length (@nil Z)) (@None (array_like Z)) /\
  properties_to_tensormap (@nil Z) (Some []) None true "property" =
    Raise ValueError /\
  ~ (exists b g,
       properties_to_tensormap (@nil Z) (Some []) None true "property" =
         Ok (mk_TensorMap Labels_single [b]) /\
       gradient b "positions" = Some g).
Proof.
  split; [reflexivity|]. split; [reflexivity|]. split; [constructor|].
  split; [exact I|]. split; [reflexivity|].
  intros (b & g & H & _). discriminate H.
Qed.

Lemma gradient_properties_equal_parent_witness :
  properties example_positions_gradient = properties example_block /\
  properties example_positions_gradient = mk_Labels ["energy"] [[0%Z]].
Proof.
  apply (gradient_properties_equal_parent example_values (Some example_positions)
           (Some example_cell) true "energy" example_tensormap
           eq_refl example_block (or_introl eq_refl)
           "positions" example_positions_gradient (or_introl eq_refl)).
Defined.

(** C3, as stated, fails on a gradient given as a (1, 3, 1) array: the
    lengths agree, the concatenated array has the last dimension 1, not 3,
    and yet the call returns a tensor map, since the check reads the second
    axis. *)
Lemma positions_trailing_dimension_counterexample :
  length [column_gradient] = length [10%Z] /\
  np_concatenate [column_gradient] = Ok (mk_ndarray [1; 3; 1] [1; 2; 3]%Z) /\
  last [1; 3; 1] 0 <> 3 /\
  properties_to_tensormap [10%Z] (Some [column_gradient]) None true "property" =
  Ok (mk_TensorMap (mk_Labels ["_"] [[0%Z]])
        [mk_TensorBlock (mk_ndarray [1; 1] [10%Z])
           (mk_Labels ["structure"] [[0%Z]])
           []
           (mk_Labels ["property"] [[0%Z]])
           [("positions",
             mk_TensorBlock (mk_ndarray [1; 3; 1] [1; 2; 3]%Z)
               (mk_Labels ["sample"; "structure"; "atom"] [[0; 0; 0]%Z])
               [mk_Labels ["direction"] [[0]; [1]; [2]]%Z]
               (mk_Labels ["property"] [[0%Z]])
               [])]]).
Proof.
  repeat split. discriminate.
Qed.

Lemma wide_gradient_rejected : positions_rejected (length [10%Z]) [wide_gradient].
Proof.
  right. exists wide_gradient, 4. repeat split. discriminate.
Defined.

Lemma positions_rejected_ValueError_witness :
  properties_to_tensormap [10%Z] (Some [wide_gradient]) None true "property" =
  Raise ValueError.
Proof.
  exact (positions_rejected_ValueError [10%Z] [wide_gradient] None "property"
           eq_refl wide_gradient_rejected).
Defined.

(** ** Arrays of too few dimensions *)

(** The gradient of one structure given as a flat array of four numbers:
    the lengths agree and the concatenation is the one-dimensional array of
    shape (4,); the column check reads [shape[1]] of it, so the call raises
    [IndexError], not the [ValueError] of the length and column checks. *)
Example positions_flat_array_IndexError :
  length [flat_gradient] = length [10%Z] /\
  np_concatenate [flat_gradient] = Ok (mk_ndarray [4] [1; 2; 3; 4]%Z) /\
  properties_to_tensormap [10%Z] (Some [flat_gradient]) None true "property" =
  Raise IndexError.
Proof.
  repeat split.
Qed.

(** C4: the stress of one structure given as a vector of six numbers (Voigt
    form) instead of a 3x3 matrix.  The lengths agree, the array has shape
    (1, 6) and so fails the shape test; the message of the [ValueError]
    reads [shape[2]] of it, so the call raises [IndexError] and the
    [ValueError] is never built. *)
Theorem cell_voigt_vector_IndexError :
  len_array_like (AList [voigt_stress]) = Ok (length [10%Z]) /\
  np_asarray (AList [voigt_stress]) =
    Ok (mk_ndarray [1; 6] [1; 2; 3; 4; 5; 6]%Z) /\
  tl [1; 6] <> [3; 3] /\
  properties_to_tensormap [10%Z] None (Some (AList [voigt_stress])) true
    "property" = Raise IndexError.
Proof.
  repeat split. discriminate.
Qed.

(** ** The metric *)

Example test_values_scores :
  rmse test_y_true test_y_pred "values" =
  Scores [0x1.94c583ada5b53p-1; 0x1.6a09e667f3bcdp-1; 1]%float.
Proof. reflexivity. Qed.

(** *** IEEE facts the metric rests on *)

Lemma is_finite_cases (x : float) :
  is_finite x = true ->
  (exists s, Prim2SF x = S754_zero s) \/
  (exists s m e, Prim2SF x = S754_finite s m e).
Proof.
  unfold is_finite, is_nan, is_infinity.
  rewrite !FloatAxioms.eqb_spec, FloatAxioms.abs_spec.
  change (Prim2SF infinity) with (S754_infinity false).
  destruct (Prim2SF x) as [s|s| |s m e].
  - intros _. left. now exists s.
  - destruct s; discriminate.
  - discriminate.
  - intros _. right. now exists s, m, e.
Qed.

Lemma SF64sub_diag_finite (s : bool) (m : positive) (e : Z) :
  SF64sub (S754_finite s m e) (S754_finite s m e) = S754_zero false.
Proof.
  unfold SF64sub, SFsub.
  replace (IntDef.Z.min e e) with e by (symmetry; apply Z.min_id).
  cbv zeta.
  replace (cond_Zopp s (Z.pos (fst (shl_align m e e))) -
           cond_Zopp s (Z.pos (fst (shl_align m e e))))%Z with 0%Z
    by (symmetry; apply Z.sub_diag).
  reflexivity.
Qed.

Lemma float_sub_diag (x : float) :
  is_finite x = true -> (x - x)%float = 0%float.
Proof.
  intros H. apply Prim2SF_inj. rewrite FloatAxioms.sub_spec.
  destruct (is_finite_cases x H) as [[s ->] | (s & m & e & ->)].
  - now destruct s.
  - now rewrite SF64sub_diag_finite.
Qed.

Lemma float_zero_div_positive (n : float) :
  (0 <? n)%float = true -> (0 / n)%float = 0%float.
Proof.
  rewrite FloatAxioms.ltb_spec. intros H. apply Prim2SF_inj.
  rewrite FloatAxioms.div_spec.
  change (Prim2SF 0) with (S754_zero false) in *.
  unfold SFltb, SFcompare in H. unfold SF64div, SFdiv.
  destruct (Prim2SF n) as [s|s| |s m e]; try discriminate;
    destruct s; try discriminate; reflexivity.
Qed.

(** The count of a non-empty array converts to a positive float: rounding
    a positive integer to 53 bits shifts it right by fewer places than it
    has binary digits. *)
Lemma iter_pos_nat {T} (f : T -> T) (p : positive) (x : T) :
  iter_pos f p x = Nat.iter (Pos.to_nat p) f x.
Proof.
  revert x. induction p as [p IH|p IH|]; intros x; cbn [iter_pos].
  - rewrite !IH, Pos2Nat.inj_xI. cbn [Nat.iter].
    rewrite <- Nat.iter_succ_r, <- Nat.iter_add. f_equal. lia.
  - rewrite !IH, Pos2Nat.inj_xO, <- Nat.iter_add. f_equal. lia.
  - reflexivity.
Qed.

Lemma shr_1_keeps_positive (mrs : shr_record) (m : positive) :
  shr_m mrs = Z.pos m ->
  (2 <= Z.pos (digits2_pos m))%Z ->
  exists m', shr_m (shr_1 mrs) = Z.pos m' /\
             Z.pos (digits2_pos m') = (Z.pos (digits2_pos m) - 1)%Z.
Proof.
  destruct mrs as [m0 r s]. cbn [shr_m]. intros -> H.
  destruct m as [q|q|]; cbn [digits2_pos] in *; [exists q | exists q | lia];
    (split; [reflexivity | lia]).
Qed.

Lemma iter_shr_1_keeps_positive (k : nat) :
  forall (mrs : shr_record) (m : positive),
    shr_m mrs = Z.pos m ->
    (Z.of_nat k < Z.pos (digits2_pos m))%Z ->
    exists m', shr_m (Nat.iter k shr_1 mrs) = Z.pos m'.
Proof.
  induction k as [|k IH]; intros mrs m Hm Hk.
  - now exists m.
  - rewrite Nat.iter_succ_r.
    destruct (shr_1_keeps_positive mrs m Hm) as (m' & Hm' & Hd'); [lia|].
    apply (IH _ m' Hm'). lia.
Qed.

Lemma fexp_binary64 (x : Z) :
  (-1021 <= x)%Z -> fexp prec emax x = (x - 53)%Z.
Proof.
  intros H. unfold fexp, emin.
  change (IntDef.Z.max (IntDef.Z.sub x prec)
            (IntDef.Z.sub (IntDef.Z.sub 3 emax) prec))
    with (Z.max (x - 53) (-1074)).
  lia.
Qed.

Lemma shr_record_of_loc_m (m : Z) (l : location) :
  shr_m (shr_record_of_loc m l) = m.
Proof. destruct l as [|[]]; reflexivity. Qed.

Lemma shr_fexp_keeps_positive (m : positive) (e : Z) (l : location) :
  (-1000 <= e)%Z ->
  exists mrs e' m',
    shr_fexp prec emax (Z.pos m) e l = (mrs, e') /\
    shr_m mrs = Z.pos m' /\ (e <= e')%Z.
Proof.
  intros He. unfold shr_fexp. cbn [Zdigits2].
  change (IntDef.Z.add (Z.pos (digits2_pos m)) e)
    with (Z.pos (digits2_pos m) + e)%Z.
  rewrite fexp_binary64 by lia.
  change (IntDef.Z.sub (Z.pos (digits2_pos m) + e - 53) e)
    with (Z.pos (digits2_pos m) + e - 53 - e)%Z.
  unfold shr.
  destruct (Z.pos (digits2_pos m) + e - 53 - e)%Z as [|k|k] eqn:Ek.
  - do 2 eexists. exists m. split; [reflexivity|].
    split; [apply shr_record_of_loc_m | lia].
  - rewrite iter_pos_nat.
    destruct (iter_shr_1_keeps_positive (Pos.to_nat k)
                (shr_record_of_loc (Z.pos m) l) m) as (m' & Hm').
    + apply shr_record_of_loc_m.
    + rewrite positive_nat_Z. lia.
    + do 2 eexists. exists m'. split; [reflexivity|]. split; [exact Hm'|].
      change (IntDef.Z.add e (Z.pos k)) with (e + Z.pos k)%Z. lia.
  - do 2 eexists. exists m. split; [reflexivity|].
    split; [apply shr_record_of_loc_m | lia].
Qed.

Lemma round_nearest_even_positive (m : positive) (l : location) :
  exists m', round_nearest_even (Z.pos m) l = Z.pos m'.
Proof.
  destruct l as [|[]]; cbn [round_nearest_even].
  - now exists m.
  - destruct (IntDef.Z.even (Z.pos m)); [now exists m|].
    now exists (m + 1)%positive.
  - now exists m.
  - now exists (m + 1)%positive.
Qed.

Lemma binary_round_aux_positive (m : positive) (e : Z) (l : location) :
  (-1000 <= e)%Z ->
  positive_spec_float (binary_round_aux prec emax false (Z.pos m) e l).
Proof.
  intros He. unfold binary_round_aux.
  destruct (shr_fexp_keeps_positive m e l He) as (mrs & e' & m' & -> & Hm' & He').
  rewrite Hm'.
  destruct (round_nearest_even_positive m' (loc_of_shr_record mrs)) as (m1 & ->).
  destruct (shr_fexp_keeps_positive m1 e' loc_Exact)
    as (mrs2 & e2 & m2 & -> & -> & He2); [lia|].
  destruct (IntDef.Z.leb e2 (IntDef.Z.sub emax prec)).
  - left. now exists m2, e2.
  - now right.
Qed.

Lemma binary_round_positive (m : positive) :
  positive_spec_float (binary_round prec emax false m 0).
Proof.
  unfold binary_round, shl_align.
  change (IntDef.Z.add (Z.pos (digits2_pos m)) 0)
    with (Z.pos (digits2_pos m) + 0)%Z.
  rewrite fexp_binary64 by lia.
  change (IntDef.Z.sub (Z.pos (digits2_pos m) + 0 - 53) 0)
    with (Z.pos (digits2_pos m) + 0 - 53 - 0)%Z.
  destruct (Z.pos (digits2_pos m) + 0 - 53 - 0)%Z as [|k|k] eqn:Ek;
    apply binary_round_aux_positive; lia.
Qed.

Lemma of_uint63_positive (n : PrimInt63.int) :
  (0 < Uint63.to_Z n)%Z -> (0 <? PrimFloat.of_uint63 n)%float = true.
Proof.
  intros H. rewrite FloatAxioms.ltb_spec, of_uint63_spec.
  change (Prim2SF 0) with (S754_zero false).
  unfold binary_normalize. destruct (Uint63.to_Z n) as [|p|p]; try lia.
  destruct (binary_round_positive p) as [(m & e & ->) | ->]; reflexivity.
Qed.

Lemma float_of_nat_positive (n : nat) :
  0 < n -> addressable n ->
  (0 <? float_of_nat n)%float = true.
Proof.
  unfold addressable, float_of_nat. intros Hn Hb.
  apply of_uint63_positive. rewrite Uint63.of_Z_spec.
  change Uint63.wB with (2 ^ 63)%Z. rewrite Z.mod_small by lia. lia.
Qed.

Lemma nan_is_not_zero : nan <> 0%float.
Proof.
  intros H. apply (f_equal PrimFloat.is_nan) in H. discriminate H.
Qed.

(** *** The metric of an array against itself *)

Lemma squared_errors_diag (xs : list float) :
  Forall (fun x => is_finite x = true) xs ->
  squared_errors xs xs = repeat 0%float (length xs).
Proof.
  unfold squared_errors.
  induction 1 as [|x xs Hx _ IH]; cbn [combine map length repeat fst snd]; [reflexivity|].
  rewrite IH, (float_sub_diag x Hx). reflexivity.
Qed.

Lemma float_sum_zeros (n : nat) : float_sum (repeat 0%float n) = 0%float.
Proof.
  unfold float_sum. induction n as [|n IH]; [reflexivity|].
  cbn [repeat fold_left]. exact IH.
Qed.

Lemma rmse_arrays_diag (a : ndarray float) :
  finite_nonempty a -> rmse_arrays a a = 0%float.
Proof.
  intros (Hfin & Hne & Hsize). unfold rmse_arrays, mean.
  rewrite (squared_errors_diag _ Hfin), repeat_length, float_sum_zeros.
  rewrite float_zero_div_positive; [reflexivity|].
  apply float_of_nat_positive; [|exact Hsize].
  destruct (data a); [congruence | cbn; lia].
Qed.

(** *** Looking a block up by its own key *)

Lemma row_eqb_refl (r : list Z) : row_eqb r r = true.
Proof.
  unfold row_eqb. destruct (list_eq_dec Z.eq_dec r r); congruence.
Qed.

Lemma row_eqb_eq (r1 r2 : list Z) : row_eqb r1 r2 = true -> r1 = r2.
Proof.
  unfold row_eqb. destruct (list_eq_dec Z.eq_dec r1 r2); congruence.
Qed.

Lemma lookup_block_own {A} (ks : list (list Z)) (bs : list (TensorBlock A)) :
  NoDup ks ->
  forall k b, In (k, b) (combine ks bs) -> lookup_block k ks bs = Some b.
Proof.
  intros Hnd. revert bs. induction Hnd as [|k0 ks Hnotin _ IH]; intros bs k b Hin.
  - destruct Hin.
  - destruct bs as [|b0 bs]; [destruct Hin|]. cbn [combine lookup_block] in *.
    destruct Hin as [[= -> ->]|Hin].
    + now rewrite row_eqb_refl.
    + destruct (row_eqb k0 k) eqn:E.
      * apply row_eqb_eq in E. subst k0. apply in_combine_l in Hin. contradiction.
      * now apply IH.
Qed.

Lemma same_key_set_refl (k : Labels) : same_key_set k k = true.
Proof.
  unfold same_key_set, names_eqb.
  destruct (list_eq_dec string_dec (names k) (names k)); [|congruence].
  assert (H : forallb (fun r => existsb (row_eqb r) (rows k)) (rows k) = true).
  { apply forallb_forall. intros r Hr. apply existsb_exists. exists r.
    split; [exact Hr | apply row_eqb_refl]. }
  now rewrite H.
Qed.

Lemma rmse_keys_diag (X : TensorMap float) (parameter_key : string)
  (entries : list (list Z * TensorBlock float)) :
  (forall k b, In (k, b) entries -> block_of X k = Some b) ->
  (forall k b, In (k, b) entries ->
     exists a, select b parameter_key = Some a /\ finite_nonempty a) ->
  rmse_keys entries X parameter_key = Scores (map (fun _ => 0%float) entries).
Proof.
  induction entries as [|[k b] rest IH]; intros Hown Hsel; [reflexivity|].
  cbn [rmse_keys map]. rewrite (Hown k b) by now left.
  destruct (Hsel k b) as (a & -> & Ha); [now left|].
  rewrite Nat.eqb_refl, IH.
  - now rewrite (rmse_arrays_diag a Ha).
  - intros k' b' H. apply Hown. now right.
  - intros k' b' H. apply (Hsel k' b'). now right.
Qed.

(** *** Reflexivity of the metric *)

Lemma single_key_valid {A} (b : TensorBlock A) :
  valid_tensormap (mk_TensorMap (mk_Labels ["_"] [[0%Z]]) [b]).
Proof.
  split; [|reflexivity]. cbn [keys rows].
  constructor; [intros [] | constructor].
Qed.

(** C8, as stated, fails on two tensor maps the converter itself returns:
    with no structure the mean is taken over no number, 0/0; with an
    infinite value the difference of the value with itself is not a
    number.  Either way the score is NaN, not 0.0. *)
Lemma rmse_reflexive_counterexample :
  (properties_to_tensormap [] None None true "property" = Ok empty_tensormap /\
   valid_tensormap empty_tensormap /\
   rmse empty_tensormap empty_tensormap "values" = Scores [nan] /\
   rmse empty_tensormap empty_tensormap "values" <>
     Scores (map (fun _ => 0%float) (rows (keys empty_tensormap)))) /\
  (properties_to_tensormap [infinity] None None true "property" =
     Ok infinite_tensormap /\
   valid_tensormap infinite_tensormap /\
   rmse infinite_tensormap infinite_tensormap "values" = Scores [nan] /\
   rmse infinite_tensormap infinite_tensormap "values" <>
     Scores (map (fun _ => 0%float) (rows (keys infinite_tensormap)))).
Proof.
  split; (split; [reflexivity|]); (split; [apply single_key_valid|]);
    (split; [reflexivity|]).
  - change (Scores [nan] <> Scores [0%float]). intros H.
    apply nan_is_not_zero. congruence.
  - change (Scores [nan] <> Scores [0%float]). intros H.
    apply nan_is_not_zero. congruence.
Qed.

(** C8, amended: for every valid tensor map X (one block per key, no key
    twice) and every [parameter_key] that selects, in each block of X, an
    array of finite numbers with at least one entry (and a count that fits
    the machine integer), [rmse(X, X, parameter_key)] returns one score per
    key of X, in the order of the keys, each equal to 0.0. *)
Theorem rmse_reflexive (X : TensorMap float) (parameter_key : string) :
  valid_tensormap X ->
  (forall b, In b (blocks X) ->
     exists a, select b parameter_key = Some a /\ finite_nonempty a) ->
  rmse X X parameter_key = Scores (map (fun _ => 0%float) (rows (keys X))).
Proof.
  intros [Hnd Hlen] Hsel. unfold rmse. rewrite same_key_set_refl.
  rewrite rmse_keys_diag.
  - f_equal. generalize (blocks X) Hlen. clear.
    induction (rows (keys X)) as [|k ks IH]; intros [|b bs] Hlen;
      try discriminate Hlen; [reflexivity|].
    cbn [combine map]. f_equal. apply IH. now injection Hlen.
  - intros k b Hin. apply lookup_block_own; assumption.
  - intros k b Hin. apply Hsel. eapply in_combine_r. exact Hin.
Qed.

Example metric_example_converted :
  properties_to_tensormap [1.5; -2]%float
    (Some [mk_ndarray [2; 3] [0.5; 1; -1; 1; 7; -6]%float;
           mk_ndarray [1; 3] [0; 2; 8]%float])
    None true "property" = Ok metric_example.
Proof. reflexivity. Qed.

Lemma metric_example_selects :
  forall b, In b (blocks metric_example) ->
    exists a, select b "positions" = Some a /\ finite_nonempty a.
Proof.
  intros b [<-|[]]. eexists. split; [reflexivity|].
  split; [repeat constructor | split; [discriminate | reflexivity]].
Defined.

Lemma rmse_reflexive_witness :
  rmse metric_example metric_example "positions" = Scores [0%float].
Proof.
  exact (rmse_reflexive metric_example "positions"
           (single_key_valid _) metric_example_selects).
Defined.

(** ** More about the converter *)

(** *** The checks of the cell gradients, case by case *)

Section MoreConverterFacts.
Context {A : Type}.
Implicit Types (vals : list A) (b : TensorBlock A).

(** X2: with a [property_name] that is an identifier and positions
    gradients absent or valid, cell gradients whose number differs from the
    number of values make the call raise [ValueError] (lines 155-159),
    whatever their shape. *)
Theorem cell_length_mismatch vals pg (x : array_like A) (property_name : string)
  (m : nat) :
  is_identifier property_name = true ->
  valid_positions (length vals) pg ->
  len_array_like x = Ok m ->
  m <> length vals ->
  properties_to_tensormap vals pg (Some x) true property_name = Raise ValueError.
Proof.
  intros Hname Hpg Hlen Hm. rewrite properties_to_tensormap_unfold by exact Hname.
  destruct (positions_step_valid vals pg property_name Hpg) as (b & -> & _).
  cbn [bind]. unfold attach_cell. rewrite Hlen. cbn [bind].
  destruct (Nat.eqb_spec (length vals) m) as [E|_]; [congruence | reflexivity].
Qed.

(** *** The checks of the positions gradients, case by case *)

Lemma np_concatenate_raises (l : list (ndarray A)) (e : exn) :
  np_concatenate l = Raise e -> e = ValueError.
Proof.
  unfold np_concatenate. destruct l as [|a0 rest]; [congruence|].
  destruct (existsb _ (a0 :: rest)); [congruence|].
  destruct (forallb _ (a0 :: rest)); congruence.
Qed.

Lemma np_concatenate_Ok_tails (l : list (ndarray A)) (gv : ndarray A) :
  np_concatenate l = Ok gv ->
  exists a0, hd_error l = Some a0 /\
    Forall (fun a => shape a <> [] /\ tl (shape a) = tl (shape a0)) l.
Proof.
  unfold np_concatenate. destruct l as [|a0 rest]; [discriminate|].
  destruct (existsb _ (a0 :: rest)) eqn:Ez; [discriminate|].
  destruct (forallb _ (a0 :: rest)) eqn:Et; [|discriminate].
  intros _. exists a0. split; [reflexivity|].
  rewrite forallb_forall in Et. apply Forall_forall. intros a Ha. split.
  - intros Hs. assert (Hex : existsb (fun a => ndim a =? 0) (a0 :: rest) = true).
    { apply existsb_exists. exists a. split; [exact Ha|]. unfold ndim. now rewrite Hs. }
    congruence.
  - apply shape_eqb_eq, Et, Ha.
Qed.

(** X8: with a [property_name] that is an identifier, if two of the
    per-structure gradient arrays differ in shape beyond their first axis
    (for instance in their number of columns), the call raises
    [ValueError]: either the lengths disagree, or [np.concatenate] refuses
    the arrays (line 124). *)
Theorem positions_ragged_ValueError vals (l : list (ndarray A)) cg
  (property_name : string) (g g' : ndarray A) :
  is_identifier property_name = true ->
  In g l -> In g' l ->
  tl (shape g) <> tl (shape g') ->
  properties_to_tensormap vals (Some l) cg true property_name = Raise ValueError.
Proof.
  intros Hname Hg Hg' Hne. rewrite properties_to_tensormap_unfold by exact Hname.
  unfold attach_positions.
  destruct (negb (length vals =? length l)); [reflexivity|].
  destruct (np_concatenate l) as [gv|e] eqn:E.
  - destruct (np_concatenate_Ok_tails l gv E) as (a0 & _ & Hall).
    rewrite Forall_forall in Hall.
    destruct (Hall g Hg) as [_ H1]. destruct (Hall g' Hg') as [_ H2]. congruence.
  - now rewrite (np_concatenate_raises l e E).
Qed.

(** Once the per-structure arrays concatenate, the indexing
    [positions_gradients[s]] and the [len] of line 141 never fail. *)
Lemma position_rows_after_concatenate (l : list (ndarray A)) (gv : ndarray A) :
  np_concatenate l = Ok gv ->
  position_rows l (seq 0 (length l)) =
  Ok (position_sample_rows (length l) (map first_axis l)).
Proof.
  intros E. destruct (np_concatenate_Ok_tails l gv E) as (a0 & _ & Hall).
  unfold position_sample_rows.
  assert (G : forall ss, Forall (fun s => s < length l) ss ->
    position_rows l ss =
    Ok (flat_map
          (fun s => map (fun a => [Z.of_nat s; Z.of_nat s; Z.of_nat a])
                        (seq 0 (nth s (map first_axis l) 0))) ss)).
  { induction 1 as [|s ss Hs _ IH]; [reflexivity|].
    cbn [position_rows flat_map]. unfold list_getitem.
    destruct (nth_error l s) as [g|] eqn:Eg.
    - cbn [bind]. rewrite Forall_forall in Hall.
      destruct (Hall g (nth_error_In _ _ Eg)) as [Hnz _].
      unfold py_len. destruct (shape g) as [|d t] eqn:Es; [congruence|].
      cbn [bind]. rewrite IH. cbn [bind].
      rewrite (nth_error_nth _ _ 0 (map_nth_error first_axis _ _ Eg)).
      unfold first_axis. rewrite Es. reflexivity.
    - apply nth_error_None in Eg. lia. }
  apply G. apply Forall_forall. intros s Hs. apply in_seq in Hs. lia.
Qed.

(** *** The sample labels of every returned gradient *)

Lemma position_sample_rows_length_any (l : list (ndarray A)) :
  length (position_sample_rows (length l) (map first_axis l)) =
  list_sum (map first_axis l).
Proof.
  rewrite <- (length_map first_axis l) at 1. apply position_sample_rows_length.
Qed.

Lemma in_position_sample_rows (n : nat) (atoms : list nat) (r : list Z) :
  In r (position_sample_rows n atoms) <->
  exists s a, r = [Z.of_nat s; Z.of_nat s; Z.of_nat a] /\
              s < n /\ a < nth s atoms 0.
Proof.
  unfold position_sample_rows. rewrite in_flat_map. split.
  - intros (s & Hs & Hr). apply in_map_iff in Hr as (a & <- & Ha).
    apply in_seq in Hs, Ha. exists s, a. repeat split; lia.
  - intros (s & a & -> & Hs & Ha). exists s. split; [apply in_seq; lia|].
    apply in_map_iff. exists a. split; [reflexivity | apply in_seq; lia].
Qed.

Lemma position_sample_rows_NoDup (n : nat) (atoms : list nat) :
  NoDup (position_sample_rows n atoms).
Proof.
  unfold position_sample_rows.
  set (f := fun s => map (fun a => [Z.of_nat s; Z.of_nat s; Z.of_nat a])
                         (seq 0 (nth s atoms 0))).
  assert (G : forall k, NoDup (flat_map f (seq k n))); [|apply G].
  induction n as [|n IH]; intros k; cbn [seq flat_map]; [constructor|].
  apply NoDup_app.
  - apply NoDup_map_NoDup_ForallPairs; [|apply seq_NoDup].
    intros a a' _ _ [= H]. lia.
  - apply IH.
  - intros r Hr Hr'. apply in_map_iff in Hr as (a & <- & _).
    apply in_flat_map in Hr' as (s & Hs & Hr').
    apply in_map_iff in Hr' as (a' & [= H _] & _). apply in_seq in Hs. lia.
Qed.

(** The inversion of a returned call with positions gradients, with the
    shape that the container accepted. *)
Lemma attach_positions_returned n b (l : list (ndarray A)) b' :
  attach_positions n b l = Ok b' ->
  exists gv,
    n = length l /\
    np_concatenate l = Ok gv /\
    np_size gv / 3 = list_sum (map first_axis l) /\
    b' = with_gradient b "positions"
           (mk_TensorBlock
              (mk_ndarray [list_sum (map first_axis l); 3; 1] (data gv))
              (mk_Labels ["sample"; "structure"; "atom"]
                 (position_sample_rows (length l) (map first_axis l)))
              [mk_Labels ["direction"] [[0%Z]; [1%Z]; [2%Z]]]
              (properties b) []).
Proof.
  intros H. pose proof H as H'.
  destruct (attach_positions_Ok _ _ _ _ H) as (gv & rows0 & -> & Hgv & Hc & Hrows & _ & ->).
  rewrite (position_rows_after_concatenate l gv Hgv) in Hrows. injection Hrows as <-.
  unfold attach_positions in H'. rewrite Nat.eqb_refl, Hgv in H'.
  cbn [negb bind] in H'. unfold shape_at in H'. rewrite Hc in H'.
  cbn [bind Nat.eqb negb] in H'.
  rewrite (position_rows_after_concatenate l gv Hgv) in H'. cbn [bind] in H'.
  destruct (np_reshape_infer gv [3; 1]) as [reshaped|e] eqn:Er; [|discriminate H'].
  cbn [bind] in H'.
  destruct (TensorBlock_new reshaped _ _ _) as [g|e] eqn:Eb; [|discriminate H'].
  destruct (np_reshape_infer_Ok _ _ _ Er) as (-> & _ & _).
  destruct (TensorBlock_new_Ok _ _ _ _ _ Eb) as [_ Hshape].
  cbn [shape rows map app length] in Hshape. injection Hshape as Hshape.
  rewrite position_sample_rows_length_any in Hshape.
  change (fst (Nat.divmod (np_size gv) 2 0 2)) with (np_size gv / 3) in Hshape.
  exists gv. repeat split; try assumption. now rewrite Hshape.
Qed.

Lemma len_asarray_first_axis (x : array_like A) (n : nat) (gv : ndarray A) :
  len_array_like x = Ok n ->
  np_asarray x = Ok gv ->
  exists t, shape gv = n :: t.
Proof.
  destruct x as [a|[|a0 rest]]; cbn [len_array_like np_asarray].
  - unfold py_len. intros Hn [= <-]. destruct (shape a) as [|d t]; [discriminate|].
    injection Hn as ->. now exists t.
  - intros [= <-] [= <-]. now exists [].
  - intros [= <-]. destruct (forallb _ rest); [|discriminate].
    intros [= <-]. now exists (shape a0).
Qed.

(** The inversion of a returned call with cell gradients, with the shape of
    the array. *)
Lemma attach_cell_returned n b (x : array_like A) b' :
  attach_cell n b x = Ok b' ->
  exists gv,
    len_array_like x = Ok n /\
    np_asarray x = Ok gv /\
    shape gv = [n; 3; 3] /\
    has_gradient b "cell" = false /\
    b' = with_gradient b "cell"
           (mk_TensorBlock
              (mk_ndarray [n; 3; 3; 1] (data gv))
              (mk_Labels ["sample"] (map (fun s => [Z.of_nat s]) (seq 0 n)))
              [mk_Labels ["direction_1"] [[0%Z]; [1%Z]; [2%Z]];
               mk_Labels ["direction_2"] [[0%Z]; [1%Z]; [2%Z]]]
              (properties b) []).
Proof.
  intros H.
  destruct (attach_cell_Ok _ _ _ _ H) as (gv & Hlen & Hgv & Htl & Hfresh & ->).
  destruct (len_asarray_first_axis x n gv Hlen Hgv) as (t & Hs).
  rewrite Hs in Htl. cbn [tl] in Htl. subst t.
  exists gv. repeat split; try assumption.
  unfold np_size. rewrite Hs. cbn [prod_shape fold_right].
  change (3 * (3 * 1)) with 9. now rewrite Nat.div_mul.
Qed.

(** A returned call went through both steps. *)
Lemma properties_to_tensormap_returned vals pg cg isp (property_name : string) tm :
  properties_to_tensormap vals pg cg isp property_name = Ok tm ->
  isp = true /\
  exists b1 b2,
    match pg with
    | Some l => attach_positions (length vals) (value_block vals property_name) l
    | None => Ok (value_block vals property_name)
    end = Ok b1 /\
    match cg with
    | Some x => attach_cell (length vals) b1 x
    | None => Ok b1
    end = Ok b2 /\
    tm = mk_TensorMap Labels_single [b2].
Proof.
  intros H. pose proof (properties_to_tensormap_Ok_name _ _ _ _ _ _ H) as Hname.
  destruct isp; [|discriminate].
  rewrite properties_to_tensormap_unfold in H by exact Hname.
  destruct (match pg with Some l => _ | None => _ end) as [b1|e]; [|discriminate H].
  cbn [bind] in H.
  destruct (match cg with Some x => _ | None => _ end) as [b2|e] eqn:E2;
    [|discriminate H].
  cbn in H. injection H as <-.
  split; [reflexivity|]. now exists b1, b2.
Qed.

Lemma np_concatenate_Ok_data (l : list (ndarray A)) (gv : ndarray A) :
  np_concatenate l = Ok gv -> data gv = concat (map data l).
Proof.
  unfold np_concatenate. destruct l as [|a0 rest]; [discriminate|].
  destruct (existsb _ (a0 :: rest)); [discriminate|].
  destruct (forallb _ (a0 :: rest)); [|discriminate].
  now intros [= <-].
Qed.

(** X9: in every tensor map that a call with positions gradients returns,
    the values of the "positions" gradient are the entries of the given
    arrays in the order of the structures, its sample rows never repeat,
    there is one row of values for each, and each row is (s, s, a) where s
    labels a row of the samples of the block and a is below the length of
    the array given for structure s. *)
Theorem positions_samples_of_returned vals (l : list (ndarray A)) cg isp
  (property_name : string) tm :
  properties_to_tensormap vals (Some l) cg isp property_name = Ok tm ->
  exists b g,
    blocks tm = [b] /\
    gradient b "positions" = Some g /\
    data (values g) = concat (map data l) /\
    shape (values g) = [length (rows (samples g)); 3; 1] /\
    NoDup (rows (samples g)) /\
    forall r, In r (rows (samples g)) ->
      exists s a gs,
        r = [Z.of_nat s; Z.of_nat s; Z.of_nat a] /\
        In [Z.of_nat s] (rows (samples b)) /\
        nth_error l s = Some gs /\
        a < first_axis gs.
Proof.
  intros H.
  destruct (properties_to_tensormap_returned _ _ _ _ _ _ H)
    as (_ & b1 & b2 & H1 & H2 & ->).
  destruct (attach_positions_returned _ _ _ _ H1) as (gv & Hn & Hgv & _ & ->).
  apply np_concatenate_Ok_data in Hgv.
  set (g := mk_TensorBlock _ _ _ _ _) in *.
  assert (Hb2 : gradient b2 "positions" = Some g /\
                samples b2 = samples (value_block vals property_name)).
  { destruct cg as [x|].
    - destruct (attach_cell_returned _ _ _ _ H2) as (gv' & _ & _ & _ & _ & ->).
      split; [|reflexivity]. now rewrite gradient_app_other by reflexivity.
    - injection H2 as <-. split; reflexivity. }
  destruct Hb2 as [Hg Hs]. exists b2, g. split; [reflexivity|].
  split; [exact Hg|]. subst g. cbn [values samples shape rows data].
  split; [exact Hgv|].
  split; [now rewrite position_sample_rows_length_any|].
  split; [apply position_sample_rows_NoDup|].
  intros r Hr. apply in_position_sample_rows in Hr as (s & a & -> & Hs' & Ha).
  destruct (nth_error l s) as [gs|] eqn:Egs.
  - exists s, a, gs. split; [reflexivity|]. split; [|split; [exact Egs|]].
    + rewrite Hs. cbn [value_block samples rows]. unfold arange_column.
      apply in_map_iff. exists s. split; [reflexivity | apply in_seq; lia].
    + rewrite (nth_error_nth _ _ 0 (map_nth_error first_axis _ _ Egs)) in Ha.
      exact Ha.
  - apply nth_error_None in Egs. lia.
Qed.

(** X6: in every tensor map that a call with cell gradients returns, the
    "cell" gradient holds one 3x3 tensor per structure, its values being the
    entries of the given array in their order, and its sample rows are the
    rows (0), ..., (N-1) of the samples of the block. *)
Theorem cell_gradient_of_returned vals pg (x : array_like A) isp
  (property_name : string) tm :
  properties_to_tensormap vals pg (Some x) isp property_name = Ok tm ->
  exists b g gv,
    blocks tm = [b] /\
    gradient b "cell" = Some g /\
    np_asarray x = Ok gv /\
    values g = mk_ndarray [length vals; 3; 3; 1] (data gv) /\
    rows (samples g) = rows (samples b) /\
    rows (samples b) = map (fun s => [Z.of_nat s]) (seq 0 (length vals)).
Proof.
  intros H.
  destruct (properties_to_tensormap_returned _ _ _ _ _ _ H)
    as (_ & b1 & b2 & H1 & H2 & ->).
  destruct (attach_cell_returned _ _ _ _ H2) as (gv & _ & Hgv & _ & Hfresh & ->).
  assert (Hs : samples b1 = samples (value_block vals property_name)).
  { destruct pg as [l|].
    - now destruct (attach_positions_returned _ _ _ _ H1) as (gv' & _ & _ & _ & ->).
    - now injection H1 as <-. }
  eexists. eexists. exists gv. split; [reflexivity|].
  split; [apply gradient_fresh_same, Hfresh|].
  split; [exact Hgv|]. split; [reflexivity|].
  cbn [with_gradient samples rows]. rewrite Hs. split; reflexivity.
Qed.

(** *** The two gradients do not depend on each other *)

(** X10: if a call with positions and cell gradients returns, so do the
    calls with either of them alone, and the block of the full call is the
    values block with the "positions" gradient of the one and then the
    "cell" gradient of the other attached. *)
Theorem gradients_independent vals (l : list (ndarray A)) (x : array_like A)
  (property_name : string) tm :
  properties_to_tensormap vals (Some l) (Some x) true property_name = Ok tm ->
  exists gp gc,
    tm = mk_TensorMap Labels_single
           [with_gradient
              (with_gradient (value_block vals property_name) "positions" gp)
              "cell" gc] /\
    properties_to_tensormap vals (Some l) None true property_name =
      Ok (mk_TensorMap Labels_single
            [with_gradient (value_block vals property_name) "positions" gp]) /\
    properties_to_tensormap vals None (Some x) true property_name =
      Ok (mk_TensorMap Labels_single
            [with_gradient (value_block vals property_name) "cell" gc]).
Proof.
  intros H. pose proof (properties_to_tensormap_Ok_name _ _ _ _ _ _ H) as Hname.
  destruct (properties_to_tensormap_returned _ _ _ _ _ _ H)
    as (_ & b1 & b2 & H1 & H2 & ->).
  destruct (attach_cell_returned _ _ _ _ H2) as (gv & _ & Hgv & Hs & _ & ->).
  destruct (attach_positions_returned _ _ _ _ H1) as (gv' & _ & _ & _ & Hb1).
  eexists. eexists. split; [rewrite Hb1 at 1; reflexivity|]. split.
  - rewrite properties_to_tensormap_unfold by exact Hname.
    rewrite H1, Hb1. reflexivity.
  - rewrite properties_to_tensormap_unfold by exact Hname. cbn [bind].
    destruct (attach_cell_3x3 (length vals) (value_block vals property_name) x)
      as (gv2 & Hgv2 & ->); [now exists gv | reflexivity | reflexivity |].
    rewrite Hgv in Hgv2. injection Hgv2 as <-.
    rewrite Hb1. reflexivity.
Qed.

(** *** Where the exceptions come from *)

Lemma np_reshape_infer_raises (a : ndarray A) (rest : list nat) (e : exn) :
  np_reshape_infer a rest = Raise e -> e = ValueError.
Proof.
  unfold np_reshape_infer. destruct (prod_shape rest =? 0); [congruence|].
  destruct (np_size a mod prod_shape rest =? 0); congruence.
Qed.

Lemma TensorBlock_new_raises (v : ndarray A) s c p (e : exn) :
  TensorBlock_new v s c p = Raise e -> e = EquistoreError.
Proof.
  unfold TensorBlock_new. destruct (shape_eqb _ _); congruence.
Qed.

Lemma add_gradient_raises b (name : string) (g : TensorBlock A) (e : exn) :
  add_gradient b name g = Raise e -> e = EquistoreError.
Proof.
  unfold add_gradient. destruct (has_gradient b name); congruence.
Qed.

Lemma np_asarray_raises (x : array_like A) (e : exn) :
  np_asarray x = Raise e -> e = ValueError.
Proof.
  destruct x as [a|[|a0 rest]]; cbn [np_asarray]; try congruence.
  destruct (forallb _ rest); congruence.
Qed.

Lemma np_concatenate_Ok_ndim (l : list (ndarray A)) (gv : ndarray A) :
  np_concatenate l = Ok gv -> 1 <= ndim gv.
Proof.
  unfold np_concatenate. destruct l as [|a0 rest]; [discriminate|].
  destruct (existsb _ (a0 :: rest)); [discriminate|].
  destruct (forallb _ (a0 :: rest)); [|discriminate].
  intros [= <-]. unfold ndim. cbn [shape length]. lia.
Qed.

(** What the positions step can raise, and when it is [IndexError]. *)
Lemma attach_positions_raises n b (l : list (ndarray A)) (e : exn) :
  attach_positions n b l = Raise e ->
  e = ValueError \/ e = EquistoreError \/
  (e = IndexError /\ n = length l /\
   exists gv, np_concatenate l = Ok gv /\ ndim gv = 1).
Proof.
  unfold attach_positions.
  destruct (Nat.eqb_spec n (length l)) as [->|_]; cbn [negb]; [|left; congruence].
  destruct (np_concatenate l) as [gv|e0] eqn:Egv; cbn [bind].
  2:{ intros [= <-]. left. exact (np_concatenate_raises l e0 Egv). }
  unfold shape_at. destruct (nth_error (shape gv) 1) as [columns|] eqn:Ec; cbn [bind].
  - destruct (negb (columns =? 3)); [left; congruence|].
    rewrite (position_rows_after_concatenate l gv Egv). cbn [bind].
    destruct (np_reshape_infer gv [3; 1]) as [reshaped|e0] eqn:Er; cbn [bind].
    2:{ intros [= <-]. left. exact (np_reshape_infer_raises _ _ _ Er). }
    destruct (TensorBlock_new reshaped _ _ _) as [g|e0] eqn:Eb; cbn [bind].
    2:{ intros [= <-]. right. left. exact (TensorBlock_new_raises _ _ _ _ _ Eb). }
    intros H. right. left. exact (add_gradient_raises _ _ _ _ H).
  - intros [= <-]. right. right. split; [reflexivity|]. split; [reflexivity|].
    exists gv. split; [reflexivity|].
    pose proof (np_concatenate_Ok_ndim l gv Egv) as Hd.
    apply nth_error_None in Ec. unfold ndim in *. lia.
Qed.

(** What the cell step can raise, and when it is [TypeError] or
    [IndexError]. *)
Lemma attach_cell_raises n b (x : array_like A) (e : exn) :
  attach_cell n b x = Raise e ->
  e = ValueError \/ e = EquistoreError \/
  (e = TypeError /\ exists a, x = AnArray a /\ shape a = []) \/
  (e = IndexError /\ len_array_like x = Ok n /\
   exists gv, np_asarray x = Ok gv /\ ndim gv < 3).
Proof.
  unfold attach_cell.
  destruct (len_array_like x) as [m|e0] eqn:Elen; cbn [bind].
  2:{ intros [= <-]. right. right. left.
      destruct x as [a|l]; cbn [len_array_like] in Elen; [|discriminate].
      unfold py_len in Elen. destruct (shape a) eqn:Es; [|discriminate].
      injection Elen as <-. split; [reflexivity|]. now exists a. }
  destruct (Nat.eqb_spec n m) as [<-|_]; cbn [negb]; [|left; congruence].
  destruct (np_asarray x) as [gv|e0] eqn:Egv; cbn [bind].
  2:{ intros [= <-]. left. exact (np_asarray_raises x e0 Egv). }
  destruct (shape_eqb (tl (shape gv)) [3; 3]) eqn:Et; cbn [negb].
  - destruct (np_reshape_infer gv [3; 3; 1]) as [reshaped|e0] eqn:Er; cbn [bind].
    2:{ intros [= <-]. left. exact (np_reshape_infer_raises _ _ _ Er). }
    destruct (TensorBlock_new reshaped _ _ _) as [g|e0] eqn:Eb; cbn [bind].
    2:{ intros [= <-]. right. left. exact (TensorBlock_new_raises _ _ _ _ _ Eb). }
    intros H. right. left. exact (add_gradient_raises _ _ _ _ H).
  - unfold shape_at.
    destruct (nth_error (shape gv) 1) as [d1|] eqn:E1; cbn [bind].
    + destruct (nth_error (shape gv) 2) as [d2|] eqn:E2; cbn [bind];
        [left; congruence|].
      intros [= <-]. right. right. right. split; [reflexivity|].
      split; [reflexivity|]. exists gv. split; [reflexivity|].
      apply nth_error_None in E2. unfold ndim. lia.
    + intros [= <-]. right. right. right. split; [reflexivity|].
      split; [reflexivity|]. exists gv. split; [reflexivity|].
      apply nth_error_None in E1. unfold ndim. lia.
Qed.

(** Which step of a call raised. *)
Lemma properties_to_tensormap_raised vals pg cg isp (property_name : string)
  (e : exn) :
  properties_to_tensormap vals pg cg isp property_name = Raise e ->
  (isp = false /\ e = NotImplementedError) \/
  (isp = true /\ is_identifier property_name = false /\ e = EquistoreError) \/
  (isp = true /\ exists l, pg = Some l /\
     attach_positions (length vals) (value_block vals property_name) l = Raise e) \/
  (isp = true /\ exists x b1, cg = Some x /\
     attach_cell (length vals) b1 x = Raise e).
Proof.
  destruct isp; [|intros [= <-]; left; split; reflexivity].
  destruct (is_identifier property_name) eqn:Hname.
  2:{ rewrite (properties_to_tensormap_invalid_name _ _ _ _ Hname).
      intros [= <-]. right. left. repeat split. }
  rewrite properties_to_tensormap_unfold by exact Hname. intros H. right. right.
  destruct pg as [l|].
  - destruct (attach_positions _ _ l) as [b1|e0] eqn:E1; cbn [bind] in H.
    + destruct cg as [x|]; [|discriminate H].
      destruct (attach_cell _ b1 x) as [b2|e1] eqn:E2; cbn [bind] in H;
        [discriminate H|].
      injection H as <-. right. split; [reflexivity|]. now exists x, b1.
    + injection H as <-. left. split; [reflexivity|]. now exists l.
  - cbn [bind] in H. destruct cg as [x|]; [|discriminate H].
    destruct (attach_cell _ _ x) as [b2|e1] eqn:E2; cbn [bind] in H;
      [discriminate H|].
    injection H as <-. right. split; [reflexivity|]. eexists. eexists.
    split; [reflexivity | exact E2].
Qed.

(** X11: a call raises [IndexError] only for arrays of too few dimensions:
    positions gradients, as many as there are values, whose concatenation
    is one-dimensional, or cell gradients, as many as there are values,
    whose array has fewer than three dimensions.  The indexing of line 141
    is never out of range. *)
Theorem IndexError_only_for_few_dimensions vals pg cg isp
  (property_name : string) :
  properties_to_tensormap vals pg cg isp property_name = Raise IndexError ->
  (exists l gv, pg = Some l /\ length l = length vals /\
     np_concatenate l = Ok gv /\ ndim gv = 1) \/
  (exists x gv, cg = Some x /\ len_array_like x = Ok (length vals) /\
     np_asarray x = Ok gv /\ ndim gv < 3).
Proof.
  intros H.
  destruct (properties_to_tensormap_raised _ _ _ _ _ _ H)
    as [[_ [=]] | [(_ & _ & [=]) | [(_ & l & -> & Hp) | (_ & x & b1 & -> & Hc)]]].
  - destruct (attach_positions_raises _ _ _ _ Hp)
      as [[=] | [[=] | (_ & Hn & gv & Hgv & Hd)]].
    left. exists l, gv. repeat split; auto.
  - destruct (attach_cell_raises _ _ _ _ Hc)
      as [[=] | [[=] | [[[=] _] | (_ & Hlen & gv & Hgv & Hd)]]].
    right. exists x, gv. repeat split; auto.
Qed.

(** X12: with a [property_name] that is an identifier and positions
    gradients absent or valid, cell gradients given as a zero-dimensional
    array make the call raise [TypeError]: [len] cannot be taken of such an
    array (line 155), whatever the number of values. *)
Theorem scalar_cell_TypeError vals pg (a : ndarray A) (property_name : string) :
  is_identifier property_name = true ->
  valid_positions (length vals) pg ->
  shape a = [] ->
  properties_to_tensormap vals pg (Some (AnArray a)) true property_name =
  Raise TypeError.
Proof.
  intros Hname Hpg Hs. rewrite properties_to_tensormap_unfold by exact Hname.
  destruct (positions_step_valid vals pg property_name Hpg) as (b & -> & _).
  cbn [bind]. unfold attach_cell. cbn [len_array_like]. unfold py_len.
  rewrite Hs. reflexivity.
Qed.

(** X13: a call raises [NotImplementedError] exactly when
    [is_structure_property] is false: no check of the gradients raises
    it. *)
Theorem NotImplementedError_iff vals pg cg isp (property_name : string) :
  properties_to_tensormap vals pg cg isp property_name =
    Raise NotImplementedError <-> isp = false.
Proof.
  split.
  - intros H.
    destruct (properties_to_tensormap_raised _ _ _ _ _ _ H)
      as [[Hisp _] | [(_ & _ & [=]) | [(_ & l & -> & Hp) | (_ & x & b1 & -> & Hc)]]].
    + exact Hisp.
    + destruct (attach_positions_raises _ _ _ _ Hp) as [[=] | [[=] | ([=] & _)]].
    + destruct (attach_cell_raises _ _ _ _ Hc)
        as [[=] | [[=] | [([=] & _) | ([=] & _)]]].
  - intros ->. reflexivity.
Qed.

(** X14: a [property_name] that is not an identifier (the empty name, a
    name with a space in it, a name that starts with a digit) makes every
    call for a structure property raise the error of the container,
    whatever the values and the gradients: the first block is built (lines
    110-115) before any gradient is looked at. *)
Theorem invalid_name_rejected vals pg cg (property_name : string) :
  is_identifier property_name = false ->
  properties_to_tensormap vals pg cg true property_name = Raise EquistoreError.
Proof.
  apply properties_to_tensormap_invalid_name.
Qed.

End MoreConverterFacts.

(** *** The examples, evaluated *)

Lemma example_positions_valid :
  valid_positions (length example_values) (Some example_positions).
Proof.
  split; [discriminate|]. split; [reflexivity|].
  exists [2; 1]. exact example_positions_shapes.
Defined.

Lemma cell_length_mismatch_witness :
  properties_to_tensormap example_values None (Some short_cell) true "energy" =
  Raise ValueError.
Proof.
  apply (cell_length_mismatch example_values None short_cell "energy" 1).
  - reflexivity.
  - exact I.
  - reflexivity.
  - discriminate.
Defined.

Lemma cell_not_3x3_witness :
  properties_to_tensormap [10%Z] None (Some wide_cell) true "energy" =
  Raise ValueError.
Proof.
  apply (cell_not_3x3 [10%Z] None wide_cell "energy" 1 3 4).
  - reflexivity.
  - exact I.
  - eexists. split; reflexivity.
  - discriminate.
Defined.

Lemma cell_3x3_attached_witness :
  exists b gv,
    np_asarray example_cell = Ok gv /\
    properties_to_tensormap example_values (Some example_positions)
      (Some example_cell) true "energy" =
      Ok (mk_TensorMap Labels_single [b]) /\
    gradient b "cell" =
      Some (mk_TensorBlock
              (mk_ndarray [length example_values; 3; 3; 1] (data gv))
              (mk_Labels ["sample"]
                 (map (fun s => [Z.of_nat s]) (seq 0 (length example_values))))
              [mk_Labels ["direction_1"] [[0%Z]; [1%Z]; [2%Z]];
               mk_Labels ["direction_2"] [[0%Z]; [1%Z]; [2%Z]]]
              (mk_Labels ["energy"] [[0%Z]])
              []).
Proof.
  apply (cell_3x3_attached example_values (Some example_positions)
           example_cell "energy").
  - reflexivity.
  - exact example_positions_valid.
  - exact example_cell_shape.
Defined.

(** No value and an empty Python list of cell gradients: the array of the
    empty list has the shape (0,). *)
Lemma cell_too_few_dimensions_witness :
  properties_to_tensormap (@nil Z) None (Some (AList [])) true "energy" =
  Raise IndexError.
Proof.
  apply (cell_too_few_dimensions (@nil Z) None (AList []) "energy"
           (mk_ndarray [0] [])).
  - reflexivity.
  - exact I.
  - reflexivity.
  - reflexivity.
  - cbn. lia.
Defined.

Lemma cell_gradient_of_returned_witness :
  exists b g gv,
    blocks example_tensormap = [b] /\
    gradient b "cell" = Some g /\
    np_asarray example_cell = Ok gv /\
    values g = mk_ndarray [length example_values; 3; 3; 1] (data gv) /\
    rows (samples g) = rows (samples b) /\
    rows (samples b) = map (fun s => [Z.of_nat s]) (seq 0 (length example_values)).
Proof.
  apply (cell_gradient_of_returned example_values (Some example_positions)
           example_cell true "energy" example_tensormap).
  reflexivity.
Defined.

Lemma positions_one_dimensional_witness :
  properties_to_tensormap [10%Z] (Some [flat_gradient]) None true "property" =
  Raise IndexError.
Proof.
  apply (positions_one_dimensional [10%Z] [flat_gradient] None "property"
           (mk_ndarray [4] [1; 2; 3; 4]%Z)).
  - reflexivity.
  - reflexivity.
  - reflexivity.
  - reflexivity.
Defined.

Lemma positions_ragged_ValueError_witness :
  properties_to_tensormap example_values (Some ragged_positions) None true
    "energy" = Raise ValueError.
Proof.
  apply (positions_ragged_ValueError example_values ragged_positions None
           "energy" (mk_ndarray [2; 3] [1; 2; 3; 4; 5; 6]%Z)
           (mk_ndarray [1; 4] [7; 8; 9; 10]%Z)).
  - reflexivity.
  - left. reflexivity.
  - right. left. reflexivity.
  - discriminate.
Defined.

Lemma positions_samples_of_returned_witness :
  exists b g,
    blocks example_tensormap = [b] /\
    gradient b "positions" = Some g /\
    data (values g) = concat (map data example_positions) /\
    shape (values g) = [length (rows (samples g)); 3; 1] /\
    NoDup (rows (samples g)) /\
    forall r, In r (rows (samples g)) ->
      exists s a gs,
        r = [Z.of_nat s; Z.of_nat s; Z.of_nat a] /\
        In [Z.of_nat s] (rows (samples b)) /\
        nth_error example_positions s = Some gs /\
        a < first_axis gs.
Proof.
  apply (positions_samples_of_returned example_values example_positions
           (Some example_cell) true "energy" example_tensormap).
  reflexivity.
Defined.

Lemma gradients_independent_witness :
  exists gp gc,
    example_tensormap =
      mk_TensorMap Labels_single
        [with_gradient
           (with_gradient (value_block example_values "energy") "positions" gp)
           "cell" gc] /\
    properties_to_tensormap example_values (Some example_positions) None true
      "energy" =
      Ok (mk_TensorMap Labels_single
            [with_gradient (value_block example_values "energy") "positions" gp]) /\
    properties_to_tensormap example_values None (Some example_cell) true
      "energy" =
      Ok (mk_TensorMap Labels_single
            [with_gradient (value_block example_values "energy") "cell" gc]).
Proof.
  apply (gradients_independent example_values example_positions example_cell
           "energy" example_tensormap).
  reflexivity.
Defined.

Lemma IndexError_only_for_few_dimensions_witness :
  (exists l gv, Some [flat_gradient] = Some l /\ length l = length [10%Z] /\
     np_concatenate l = Ok gv /\ ndim gv = 1) \/
  (exists (x : array_like Z) gv, None = Some x /\
     len_array_like x = Ok (length [10%Z]) /\
     np_asarray x = Ok gv /\ ndim gv < 3).
Proof.
  apply (IndexError_only_for_few_dimensions [10%Z] (Some [flat_gradient]) None
           true "property").
  reflexivity.
Defined.

Lemma scalar_cell_TypeError_witness :
  properties_to_tensormap [10%Z] None (Some scalar_cell) true "property" =
  Raise TypeError.
Proof.
  apply (scalar_cell_TypeError [10%Z] None (mk_ndarray [] [5%Z]) "property").
  - reflexivity.
  - exact I.
  - reflexivity.
Defined.

Lemma invalid_name_rejected_witness :
  properties_to_tensormap example_values (Some example_positions)
    (Some example_cell) true "my prop" = Raise EquistoreError.
Proof.
  apply (invalid_name_rejected example_values (Some example_positions)
           (Some example_cell) "my prop").
  reflexivity.
Defined.
